(** * Continuous-time structural models of corporate claims

    A shallow embedding of [continuous_time_models.py]: the parameter object
    [AssetsDynamics] and the two valuation engines [FirmClaimsLiquidation]
    and [FirmClaimsRenegotiation].

    Numbers.  A Python [float] and a [numpy.float64] are both binary64
    numbers.  They are modelled by [float64]: a real number together with
    the sign bit, or an infinity, or NaN.  Rounding and overflow are left
    out (every finite result is the exact real one); signed zeros,
    infinities, NaN and the exceptions Python raises are kept, because the
    two number types differ exactly there: a Python float divided by zero
    raises [ZeroDivisionError], a numpy scalar yields an infinity or NaN.

    Objects.  [pyval] holds what the program's expressions can evaluate to:
    [None], a bound method, a Python number, a numpy scalar.  Evaluation
    is in the error monad [result], operands left to right as in Python. *)

From Stdlib Require Import Reals Lra Psatz Bool ZArith List.
Import ListNotations.

Open Scope R_scope.

(* ------------------------------------------------------------------ *)
(** ** Binary64 numbers, without rounding *)

Module Float64.

Inductive float64 : Type :=
| Fin (r : R) (sign : bool)   (* finite; [sign] is the sign bit *)
| Inf (sign : bool)           (* +inf ([false]) and -inf ([true]) *)
| NaN.

Definition Rneg (r : R) : bool := if Rlt_dec r 0 then true else false.
Definition Rzero (r : R) : bool := if Req_dec_T r 0 then true else false.

(** The float of a real number; zero is +0.0. *)
Definition of_R (r : R) : float64 := Fin r (Rneg r).

Definition one : float64 := Fin 1 false.

Definition is_zero (x : float64) : bool :=
  match x with Fin r _ => Rzero r | _ => false end.

Definition fneg (x : float64) : float64 :=
  match x with
  | Fin r s => Fin (- r) (negb s)
  | Inf s => Inf (negb s)
  | NaN => NaN
  end.

(** x + y.  An exact zero sum is -0.0 only when both operands are
    negative (both are then -0.0). *)
Definition fadd (x y : float64) : float64 :=
  match x, y with
  | NaN, _ | _, NaN => NaN
  | Inf s, Inf s' => if eqb s s' then Inf s else NaN
  | Inf s, Fin _ _ | Fin _ _, Inf s => Inf s
  | Fin a sa, Fin b sb =>
      Fin (a + b) (if Rzero (a + b) then sa && sb else Rneg (a + b))
  end.

Definition fsub (x y : float64) : float64 := fadd x (fneg y).

Definition fmul (x y : float64) : float64 :=
  match x, y with
  | NaN, _ | _, NaN => NaN
  | Inf s, Inf s' => Inf (xorb s s')
  | Inf s, Fin r s' | Fin r s', Inf s =>
      if Rzero r then NaN else Inf (xorb s s')
  | Fin a sa, Fin b sb => Fin (a * b) (xorb sa sb)
  end.

(** x / y with the IEEE answers for a zero divisor: NaN for 0/0, a signed
    infinity otherwise. *)
Definition fdiv (x y : float64) : float64 :=
  match x, y with
  | NaN, _ | _, NaN => NaN
  | Inf _, Inf _ => NaN
  | Inf s, Fin _ s' => Inf (xorb s s')
  | Fin _ s, Inf s' => Fin 0 (xorb s s')
  | Fin a sa, Fin b sb =>
      if Rzero b then (if Rzero a then NaN else Inf (xorb sa sb))
      else Fin (a / b) (xorb sa sb)
  end.

(** sqrt: NaN below zero, sqrt(-0.0) = -0.0. *)
Definition fsqrt (x : float64) : float64 :=
  match x with
  | NaN => NaN
  | Inf s => if s then NaN else Inf false
  | Fin r s => if Rneg r then NaN else Fin (sqrt r) s
  end.

Definition is_int (r : R) : bool :=
  if Req_dec_T (IZR (Int_part r)) r then true else false.
Definition is_odd (r : R) : bool := is_int r && Z.odd (Int_part r).

(** pow(x, y) of C99 Annex F, which both CPython and numpy call. *)
Definition fpow (x y : float64) : float64 :=
  match x, y with
  | _, Fin e _ =>
      if Rzero e then one else
      match x with
      | NaN => NaN
      | Inf s =>
          if s then (if Rneg e then Fin 0 (is_odd e) else Inf (is_odd e))
          else (if Rneg e then Fin 0 false else Inf false)
      | Fin b s =>
          if Rzero b then
            (if Rneg e then Inf (s && is_odd e) else Fin 0 (s && is_odd e))
          else if Rneg b then
            (if is_int e
             then Fin ((if is_odd e then -1 else 1) * Rpower (- b) e) (is_odd e)
             else NaN)
          else Fin (Rpower b e) false
      end
  | Fin b _, NaN => if Rzero (b - 1) then one else NaN
  | _, NaN => NaN
  | NaN, Inf _ => NaN
  | Inf _, Inf s' => if s' then Fin 0 false else Inf false
  | Fin b _, Inf s' =>
      if Rzero (Rabs b - 1) then one
      else if Rlt_dec (Rabs b) 1
           then (if s' then Inf false else Fin 0 false)
           else (if s' then Fin 0 false else Inf false)
  end.

(** The real number a finite float stands for. *)
Definition to_R (x : float64) : option R :=
  match x with Fin r _ => Some r | _ => None end.

End Float64.

Import Float64.

(* ------------------------------------------------------------------ *)
(** ** Python values and operators *)

Inductive exn : Type := TypeError | ZeroDivisionError | IndexError.

(** [Complex] is not an exception: CPython goes on with a complex number
    there (a negative float raised to a fractional power), which [pyval]
    does not have.  No expression of the program reaches it. *)
Inductive result (A : Type) : Type :=
| Ok (a : A)
| Raise (e : exn)
| Complex.
Arguments Ok {A} a.
Arguments Raise {A} e.
Arguments Complex {A}.

Definition bind {A B : Type} (m : result A) (k : A -> result B) : result B :=
  match m with
  | Ok a => k a
  | Raise e => Raise e
  | Complex => Complex
  end.

Inductive pyval : Type :=
| PyNone                        (* None *)
| PyMethod                      (* a bound method object *)
| PyFloat (x : float64)         (* a Python int or float *)
| NpFloat (x : float64).        (* a numpy.float64 scalar *)

Module Py.

(** +, - and *: a numpy operand makes the result a numpy scalar; None or
    a method on either side has no such operator. *)
Definition arith (op : float64 -> float64 -> float64) (a b : pyval)
  : result pyval :=
  match a, b with
  | PyFloat x, PyFloat y => Ok (PyFloat (op x y))
  | PyFloat x, NpFloat y | NpFloat x, PyFloat y | NpFloat x, NpFloat y =>
      Ok (NpFloat (op x y))
  | _, _ => Raise TypeError
  end.

Definition add := arith Float64.fadd.
Definition sub := arith Float64.fsub.
Definition mul := arith Float64.fmul.

(** /: between two Python numbers a zero divisor raises; numpy divides
    as IEEE does (and only warns). *)
Definition truediv (a b : pyval) : result pyval :=
  match a, b with
  | PyFloat x, PyFloat y =>
      if is_zero y then Raise ZeroDivisionError
      else Ok (PyFloat (Float64.fdiv x y))
  | PyFloat x, NpFloat y | NpFloat x, PyFloat y | NpFloat x, NpFloat y =>
      Ok (NpFloat (Float64.fdiv x y))
  | _, _ => Raise TypeError
  end.

(** float ** float of CPython ([float_pow]): pow(), but zero to a negative
    power raises and a negative base with a fractional exponent turns
    complex. *)
Definition float_pow (x y : float64) : result pyval :=
  match x, y with
  | Fin b _, Fin e _ =>
      if Rzero e then Ok (PyFloat one)
      else if Rzero b then
        (if Rneg e then Raise ZeroDivisionError
         else Ok (PyFloat (Float64.fpow x y)))
      else if Rneg b && negb (is_int e) then Complex
      else Ok (PyFloat (Float64.fpow x y))
  | _, _ => Ok (PyFloat (Float64.fpow x y))
  end.

Definition pow (a b : pyval) : result pyval :=
  match a, b with
  | PyFloat x, PyFloat y => float_pow x y
  | PyFloat x, NpFloat y | NpFloat x, PyFloat y | NpFloat x, NpFloat y =>
      Ok (NpFloat (Float64.fpow x y))
  | _, _ => Raise TypeError
  end.

(** np.sqrt of a value: always a numpy scalar. *)
Definition sqrt_val (a : pyval) : result pyval :=
  match a with
  | PyFloat x | NpFloat x => Ok (NpFloat (Float64.fsqrt x))
  | _ => Raise TypeError
  end.



(** A binary operator on two expressions: left operand, right operand,
    then the operation. *)
Definition binop (op : pyval -> pyval -> result pyval)
           (e1 e2 : result pyval) : result pyval :=
  bind e1 (fun a => bind e2 (fun b => op a b)).

(** np.sqrt(e). *)
Definition np_sqrt (e : result pyval) : result pyval := bind e sqrt_val.

(** A number written in the source, or read from a numeric attribute. *)
Definition num (r : R) : result pyval := Ok (PyFloat (of_R r)).

(** An attribute that may have been left at None. *)
Definition attr (o : option R) : result pyval :=
  match o with
  | Some r => num r
  | None => Ok PyNone
  end.

End Py.

Declare Scope py_scope.
Delimit Scope py_scope with py.
Notation "x <- e ;; k" := (bind e (fun x => k))
  (at level 61, e at next level, right associativity) : py_scope.
Notation "a + b" := (Py.binop Py.add a b) : py_scope.
Notation "a - b" := (Py.binop Py.sub a b) : py_scope.
Notation "a * b" := (Py.binop Py.mul a b) : py_scope.
Notation "a / b" := (Py.binop Py.truediv a b) : py_scope.
Notation "a ** b" := (Py.binop Py.pow a b)
  (at level 30, right associativity) : py_scope.
Notation "# r" := (Py.num r) (at level 9, r at level 9) : py_scope.
Notation "! v" := (Ok v) (at level 9, v at level 9) : py_scope.

(* ------------------------------------------------------------------ *)
(** ** class AssetsDynamics *)

Record AssetsDynamics : Type := {
  drift : R;            (* expected return of dX/X *)
  volatility : R;       (* volatility of dX/X *)
  r_free : R;           (* riskless return *)
  tau : R;              (* taxes *)
  alpha : R;            (* bankruptcy costs *)
  q : option R;         (* probability of default of the renegotiation *)
  eta : option R;       (* shareholders bargaining power *)
  theta : option R      (* shareholders portion of assets *)
}.

Open Scope py_scope.

Definition value (self : AssetsDynamics) (cash_flow : pyval) : result pyval :=
  assets <- !cash_flow * (#1 - #self.(tau))
              / (#self.(r_free) - #self.(drift)) ;;
  !assets.

(** The class method: theta = eta * alpha, on real arguments. *)
Definition debt_renegotation_optimal_theta
    (drift volatility r_free tau alpha q eta : R) : AssetsDynamics :=
  let theta := (eta * alpha)%R in
  {| drift := drift; volatility := volatility; r_free := r_free;
     tau := tau; alpha := alpha;
     q := Some q; eta := Some eta; theta := Some theta |}.

(** What [scipy.optimize.minimize] hands back, as far as the program and
    its callers can look at it. *)
Module optimize.
Record OptimizeResult : Type := {
  x : list float64;     (* the solution array *)
  success : bool;       (* whether the optimizer exited successfully *)
  status : Z            (* termination status *)
}.
End optimize.

(* ------------------------------------------------------------------ *)
(** ** class FirmClaimsLiquidation *)

Module FirmClaimsLiquidation.

Definition _beta2 (self : AssetsDynamics) : result pyval :=
  beta2 <- #0.5 - #self.(drift) / (#self.(volatility) ** #2)
           - Py.np_sqrt
               ((#0.5 - #self.(drift) / (#self.(volatility) ** #2)) ** #2
                + #2 * #self.(r_free) / (#self.(volatility) ** #2)) ;;
  !beta2.

(** [self._beta2] is read, not called: the exponent is the bound method. *)
Definition _arrow_debreu_default (self : AssetsDynamics)
    (cash_flow debt_limit : pyval) : result pyval :=
  arrow_debreu_default <- (!cash_flow / !debt_limit) ** !PyMethod ;;
  !arrow_debreu_default.

Definition equity (self : AssetsDynamics)
    (coupon cash_flow debt_liquidation : pyval) : result pyval :=
  risk_free_debt <- !coupon / #self.(r_free) ;;
  pv_cash_flow_no_default <-
    value self cash_flow - (#1 - #self.(tau)) * !risk_free_debt ;;
  option_to_default <-
    _arrow_debreu_default self cash_flow debt_liquidation
    * (value self debt_liquidation
       - (#1 - #self.(tau)) * !risk_free_debt) ;;
  equity_value <- !pv_cash_flow_no_default - !option_to_default ;;
  !equity_value.

Definition debt (self : AssetsDynamics)
    (coupon cash_flow debt_liquidation : pyval) : result pyval :=
  risk_free_debt <- !coupon / #self.(r_free) ;;
  debt_change <-
    _arrow_debreu_default self cash_flow debt_liquidation
    * ((#1 - #self.(alpha)) * value self debt_liquidation
       - !risk_free_debt) ;;
  debt_value <- !risk_free_debt + !debt_change ;;
  !debt_value.

Definition firm (self : AssetsDynamics)
    (coupon cash_flow debt_liquidation : pyval) : result pyval :=
  equity self coupon cash_flow debt_liquidation
  + debt self coupon cash_flow debt_liquidation.

Section Optimizer.

(** [scipy.optimize.minimize(fun=..., x0=..., args=...)], called with an
    object as the objective and the extra arguments as a tuple. *)
Variable minimize :
  pyval -> R -> list pyval -> result optimize.OptimizeResult.


End Optimizer.

End FirmClaimsLiquidation.

(* ------------------------------------------------------------------ *)
(** ** class FirmClaimsRenegotiation *)

Module FirmClaimsRenegotiation.

Definition _beta2 (self : AssetsDynamics) : result pyval :=
  beta2 <- #0.5 - #self.(drift) / (#self.(volatility) ** #2)
           - Py.np_sqrt
               ((#0.5 - #self.(drift) / (#self.(volatility) ** #2)) ** #2
                + #2 * #self.(r_free) / (#self.(volatility) ** #2)) ;;
  !beta2.

Definition _arrow_debreu_default (self : AssetsDynamics)
    (cash_flow debt_limit : pyval) : result pyval :=
  arrow_debreu_default <- (!cash_flow / !debt_limit) ** _beta2 self ;;
  !arrow_debreu_default.

Definition debt_renegotiation (self : AssetsDynamics) (coupon : pyval)
  : result pyval :=
  risk_free_debt <- !coupon / #self.(r_free) ;;
  debt_renegotiation <-
    (#self.(r_free) - #self.(drift)) * !risk_free_debt * _beta2 self
    / ((_beta2 self - #1)
       * (#1 - (#1 - Py.attr self.(q)) * Py.attr self.(theta))) ;;
  !debt_renegotiation.

Definition equity (self : AssetsDynamics) (coupon cash_flow : pyval)
  : result pyval :=
  risk_free_debt <- !coupon / #self.(r_free) ;;
  pv_cash_flow_no_default <-
    value self cash_flow - (#1 - #self.(tau)) * !risk_free_debt ;;
  option_to_default <-
    (limit <- debt_renegotiation self coupon ;;
     _arrow_debreu_default self cash_flow limit)
    * ((limit <- debt_renegotiation self coupon ;; value self limit)
       * (#1 - (#1 - Py.attr self.(q)) * Py.attr self.(theta))
       - (#1 - #self.(tau)) * !risk_free_debt) ;;
  equity_value <- !pv_cash_flow_no_default - !option_to_default ;;
  !equity_value.

Definition debt (self : AssetsDynamics) (coupon cash_flow : pyval)
  : result pyval :=
  risk_free_debt <- !coupon / #self.(r_free) ;;
  debt_change <-
    (limit <- debt_renegotiation self coupon ;;
     _arrow_debreu_default self cash_flow limit)
    * (Py.attr self.(q) * (#1 - #self.(alpha))
         * (limit <- debt_renegotiation self coupon ;; value self limit)
       + (#1 - Py.attr self.(q)) * (#1 - Py.attr self.(theta))
         * (limit <- debt_renegotiation self coupon ;; value self limit)
       - !risk_free_debt) ;;
  debt_value <- !risk_free_debt + !debt_change ;;
  !debt_value.

Definition firm (self : AssetsDynamics) (coupon cash_flow : pyval)
  : result pyval :=
  equity self coupon cash_flow + debt self coupon cash_flow.

Definition _obj_max_coupon (self : AssetsDynamics)
    (coupon cash_flow : pyval) : result pyval :=
  #(-1) * firm self coupon cash_flow.

Section Optimizer.

(** [scipy.optimize.minimize(fun=..., x0=...)]: an objective and a
    seed in, an [OptimizeResult] out (or whatever the objective
    raised). *)
Variable minimize :
  (pyval -> result pyval) -> R -> result optimize.OptimizeResult.

Definition max_coupon (self : AssetsDynamics) (cash_flow : pyval)
  : result pyval :=
  let function := fun coupon => _obj_max_coupon self coupon cash_flow in
  result <- minimize function 0.001 ;;
  coupon <- match nth_error result.(optimize.x) 0 with
            | Some c => !(NpFloat c)
            | None => Raise IndexError
            end ;;
  !coupon.

End Optimizer.

End FirmClaimsRenegotiation.

Close Scope py_scope.

(* ------------------------------------------------------------------ *)
(** ** Reading results *)

Open Scope py_scope.

Arguments Float64.fpow : simpl never.
Arguments Py.float_pow : simpl never.

(** A Python scalar argument. *)
Definition py (r : R) : pyval := PyFloat (of_R r).

Definition real_of (v : pyval) : option R :=
  match v with
  | PyFloat x | NpFloat x => to_R x
  | _ => None
  end.

Definition is_num (v : pyval) : Prop :=
  match v with
  | PyFloat _ | NpFloat _ => True
  | _ => False
  end.

(** [e] evaluates, without raising, to the finite number [r]. *)
Definition returns (e : result pyval) (r : R) : Prop :=
  exists v, e = Ok v /\ real_of v = Some r.

(** [e] evaluates to a number, finite or not. *)
Definition numeric (e : result pyval) : Prop :=
  exists v, e = Ok v /\ is_num v.

(** [e] evaluates to some object: nothing was raised. *)
Definition evaluates (e : result pyval) : Prop := exists v, e = Ok v.

(** [e] evaluates to a numpy scalar, finite or not. *)
Definition numpy (e : result pyval) : Prop :=
  exists x, e = Ok (NpFloat x).



(* ------------------------------------------------------------------ *)
(** ** Closed forms on real numbers *)

(** The closed form of the exponent, on real numbers. *)
Definition beta2_formula (drift volatility r_free : R) : R :=
  (0.5 - drift / volatility ^ 2
   - sqrt ((0.5 - drift / volatility ^ 2) ^ 2 + 2 * r_free / volatility ^ 2))%R.

Definition discriminant (drift volatility r_free : R) : R :=
  ((0.5 - drift / volatility ^ 2) ^ 2 + 2 * r_free / volatility ^ 2)%R.

(** The closed form of the renegotiation boundary, on real numbers. *)
Definition boundary_formula (drift r_free beta2 q theta coupon : R) : R :=
  ((r_free - drift) * (coupon / r_free) * beta2
   / ((beta2 - 1) * (1 - (1 - q) * theta)))%R.

(** Asset value at cash flow [x], on real numbers. *)
Definition value_formula (self : AssetsDynamics) (x : R) : R :=
  (x * (1 - self.(tau)) / (self.(r_free) - self.(drift)))%R.

(** Debt value at barrier [b] with exponent [beta2], on real numbers. *)
Definition debt_formula (self : AssetsDynamics) (beta2 q theta b : R)
           (coupon cash_flow : R) : R :=
  (coupon / self.(r_free)
   + Rpower (cash_flow / b) beta2
     * (q * (1 - self.(alpha)) * value_formula self b
        + (1 - q) * (1 - theta) * value_formula self b
        - coupon / self.(r_free)))%R.

Definition equity_formula (self : AssetsDynamics) (beta2 q theta b : R)
           (coupon cash_flow : R) : R :=
  (value_formula self cash_flow - (1 - self.(tau)) * (coupon / self.(r_free))
   - Rpower (cash_flow / b) beta2
     * (value_formula self b * (1 - (1 - q) * theta)
        - (1 - self.(tau)) * (coupon / self.(r_free))))%R.

(** Equity over the quantities it is made of: slope [k] of the asset
    value, after-tax coupon value [T], equity share [D] at the barrier
    [b]. *)
Definition equity_closed (k T D b beta2 x : R) : R :=
  (k * x - T + Rpower (x / b) beta2 * (T - D * (k * b)))%R.

(** Debt over the riskless coupon value [C] and the recovery [N] at the
    barrier [b]. *)
Definition debt_closed (k C N b beta2 x : R) : R :=
  (C + Rpower (x / b) beta2 * (N * (k * b) - C))%R.

(* ------------------------------------------------------------------ *)
(** ** Inputs used as examples *)

(** The parameters of example.py, before q, eta and theta are given. *)
Definition example_dynamics : AssetsDynamics :=
  {| drift := 0.01; volatility := 0.25; r_free := 0.04; tau := 0.15;
     alpha := 0.4; q := None; eta := None; theta := None |}.

(** The parameters of example.py: q = 1, eta = 0.5, theta = eta * alpha. *)
Definition example_renegotiation : AssetsDynamics :=
  debt_renegotation_optimal_theta 0.01 0.25 0.04 0.15 0.4 1 0.5.

(** Dynamics whose riskless rate equals the drift. *)
Definition equal_rates_dynamics : AssetsDynamics :=
  {| drift := 0.04; volatility := 0.25; r_free := 0.04; tau := 0.15;
     alpha := 0.4; q := None; eta := None; theta := None |}.


(** Dynamics with round numbers: beta2 is -1 here. *)
Definition unit_dynamics : AssetsDynamics :=
  {| drift := 0; volatility := 1; r_free := 1; tau := 0.15;
     alpha := 0.4; q := Some 1%R; eta := Some 0.5%R; theta := Some 0.2%R |}.


(** An optimizer that gives up at once: the seed comes back, flagged as a
    failure. *)
Definition stalled_minimize (objective : pyval -> result pyval) (x0 : R)
  : result optimize.OptimizeResult :=
  Ok {| optimize.x := [of_R x0]; optimize.success := false;
        optimize.status := 2%Z |}.

(** The parameters lie in their domain, q and theta are given, and the
    renegotiation split leaves something to share. *)
Definition in_domain (self : AssetsDynamics) (qv thetav : R) : Prop :=
  (0 < self.(volatility))%R /\ (0 < self.(r_free))%R
  /\ (self.(drift) < self.(r_free))%R
  /\ (0 <= self.(tau) < 1)%R /\ (0 <= self.(alpha) <= 1)%R
  /\ self.(q) = Some qv /\ (0 <= qv <= 1)%R
  /\ self.(theta) = Some thetav /\ (0 <= thetav <= 1)%R
  /\ ((1 - qv) * thetav < 1)%R.

(* ------------------------------------------------------------------ *)
(** ** example.py: the figures the script prints *)

Module example.




Section Script.

Variable minimize :
  (pyval -> result pyval) -> R -> result optimize.OptimizeResult.


End Script.

End example.

(* ------------------------------------------------------------------ *)
(** ** Evaluation lemmas *)

Section Decisions.

Lemma Rzero_true (r : R) : r = 0%R -> Rzero r = true.
Proof. intros H. unfold Rzero. destruct (Req_dec_T r 0); congruence. Qed.

Lemma Rzero_false (r : R) : r <> 0%R -> Rzero r = false.
Proof. intros H. unfold Rzero. destruct (Req_dec_T r 0); congruence. Qed.

Lemma Rneg_true (r : R) : (r < 0)%R -> Rneg r = true.
Proof. intros H. unfold Rneg. destruct (Rlt_dec r 0); tauto. Qed.

Lemma Rneg_false (r : R) : (0 <= r)%R -> Rneg r = false.
Proof. intros H. unfold Rneg. destruct (Rlt_dec r 0); [lra | reflexivity]. Qed.

Lemma Int_part_IZR (z : Z) : Int_part (IZR z) = z.
Proof. symmetry. apply Int_part_spec. lra. Qed.

Lemma is_int_2 : is_int 2 = true.
Proof.
  unfold is_int. rewrite Int_part_IZR.
  destruct (Req_dec_T 2 2); congruence.
Qed.

Lemma is_odd_2 : is_odd 2 = false.
Proof. unfold is_odd. rewrite is_int_2, Int_part_IZR. reflexivity. Qed.

Lemma Rpower_2 (r : R) : (0 < r)%R -> Rpower r 2 = (r * r)%R.
Proof.
  intros H. change 2%R with (INR 2). rewrite Rpower_pow by assumption.
  simpl. ring.
Qed.

Lemma Rpower_1_l (e : R) : Rpower 1 e = 1%R.
Proof. unfold Rpower. rewrite ln_1, Rmult_0_r. apply exp_0. Qed.

End Decisions.

Section Evaluation.

Lemma returns_num (r : R) : returns (#r) r.
Proof. exists (py r). split; reflexivity. Qed.

Lemma returns_val (v : pyval) (r : R) : real_of v = Some r -> returns (!v) r.
Proof. intros H. exists v. auto. Qed.

Lemma returns_py (r : R) : returns (!(py r)) r.
Proof. apply returns_num. Qed.

Lemma returns_attr (o : option R) (r : R) :
  o = Some r -> returns (Py.attr o) r.
Proof. intros ->. apply returns_num. Qed.

Lemma returns_inj (e : result pyval) (r r' : R) :
  returns e r -> returns e r' -> r = r'.
Proof. intros (v & -> & H) (v' & [= <-] & H'). congruence. Qed.

Lemma returns_eq (e : result pyval) (r r' : R) :
  returns e r -> r = r' -> returns e r'.
Proof. intros H <-. exact H. Qed.

Lemma returns_numeric (e : result pyval) (r : R) : returns e r -> numeric e.
Proof.
  intros (v & -> & H). exists v. split; [reflexivity|].
  destruct v; simpl in *; try discriminate; exact I.
Qed.

Lemma numpy_numeric (e : result pyval) : numpy e -> numeric e.
Proof. intros (y & ->). exists (NpFloat y). split; [reflexivity | exact I]. Qed.

(** A value that reads as [r] is a finite float of either kind. *)
Lemma real_of_inv (v : pyval) (r : R) :
  real_of v = Some r ->
  exists s, v = PyFloat (Fin r s) \/ v = NpFloat (Fin r s).
Proof.
  destruct v as [| |[a s| |]|[a s| |]]; simpl; intros [= <-] || discriminate;
    exists s; auto.
Qed.

End Evaluation.

(** Opens every [returns] hypothesis into its two shapes, a Python float
    and a numpy scalar. *)
Ltac invert_returns :=
  repeat match goal with
    | H : returns _ _ |- _ =>
        let v := fresh "v" in
        let E := fresh "E" in
        let s := fresh "s" in
        destruct H as (v & -> & E);
        apply real_of_inv in E; destruct E as (s & [-> | ->])
    end.

Ltac invert_numeric :=
  repeat match goal with
    | H : numeric _ |- _ =>
        let v := fresh "v" in
        let E := fresh "E" in
        destruct H as (v & -> & E);
        destruct v; simpl in E; try contradiction; clear E
    | H : numpy _ |- _ =>
        let y := fresh "y" in destruct H as (y & ->)
    end.

Ltac solve_returns := eexists; split; reflexivity.

Section Operators.

Lemma returns_bind (e : result pyval) (k : pyval -> result pyval) (r r' : R) :
  returns e r ->
  (forall v, real_of v = Some r -> returns (k v) r') ->
  returns (bind e k) r'.
Proof. intros (v & -> & H) K. simpl. auto. Qed.

Lemma returns_add (a b : result pyval) (r1 r2 : R) :
  returns a r1 -> returns b r2 -> returns (a + b) (r1 + r2).
Proof.
  intros Ha Hb. invert_returns; simpl; solve_returns.
Qed.

Lemma returns_sub (a b : result pyval) (r1 r2 : R) :
  returns a r1 -> returns b r2 -> returns (a - b) (r1 - r2).
Proof.
  intros Ha Hb. invert_returns; simpl; solve_returns.
Qed.

Lemma returns_mul (a b : result pyval) (r1 r2 : R) :
  returns a r1 -> returns b r2 -> returns (a * b) (r1 * r2).
Proof.
  intros Ha Hb. invert_returns; simpl; solve_returns.
Qed.

Lemma returns_div (a b : result pyval) (r1 r2 : R) :
  returns a r1 -> returns b r2 -> r2 <> 0%R -> returns (a / b) (r1 / r2).
Proof.
  intros Ha Hb Hz. invert_returns; simpl; rewrite (Rzero_false _ Hz);
    solve_returns.
Qed.

(** e ** 2, at any finite base. *)
Lemma pow_2 (b : R) (s s' : bool) :
  exists s'', Float64.fpow (Fin b s) (Fin 2 s') = Fin (b * b) s''.
Proof.
  unfold Float64.fpow. rewrite (Rzero_false 2) by lra.
  destruct (Req_dec_T b 0) as [-> | Hb].
  - rewrite (Rzero_true 0), (Rneg_false 2) by lra.
    rewrite Rmult_0_l. eauto.
  - rewrite (Rzero_false b) by assumption.
    destruct (Rlt_dec b 0) as [Hn | Hp].
    + rewrite (Rneg_true b), is_int_2, is_odd_2 by assumption.
      rewrite Rpower_2 by lra.
      replace (1 * (- b * - b))%R with (b * b)%R by ring. eauto.
    + rewrite (Rneg_false b), Rpower_2 by lra. eauto.
Qed.

Lemma float_pow_2 (b : R) (s s' : bool) :
  exists s'', Py.float_pow (Fin b s) (Fin 2 s') = Ok (PyFloat (Fin (b * b) s'')).
Proof.
  destruct (pow_2 b s s') as (s'' & E).
  unfold Py.float_pow. rewrite (Rzero_false 2), is_int_2, andb_false_r by lra.
  rewrite (Rneg_false 2), E by lra.
  destruct (Rzero b); eauto.
Qed.

Lemma returns_sq (a : result pyval) (r : R) :
  returns a r -> returns (a ** #2) (r * r).
Proof.
  intros Ha. invert_returns; unfold Py.num, of_R; simpl.
  - destruct (float_pow_2 r s (Rneg 2)) as (s'' & ->). solve_returns.
  - destruct (pow_2 r s (Rneg 2)) as (s'' & ->). solve_returns.
Qed.

(** A positive base: the real power, whatever the kinds of the operands. *)
Lemma pow_pos (b e : R) (s s' : bool) :
  (0 < b)%R -> Float64.fpow (Fin b s) (Fin e s') = Fin (Rpower b e) false.
Proof.
  intros Hb. unfold Float64.fpow.
  destruct (Req_dec_T e 0) as [-> | He].
  - rewrite Rzero_true, Rpower_O by auto. reflexivity.
  - rewrite (Rzero_false e), (Rzero_false b), (Rneg_false b) by lra.
    reflexivity.
Qed.

Lemma float_pow_pos (b e : R) (s s' : bool) :
  (0 < b)%R ->
  Py.float_pow (Fin b s) (Fin e s') = Ok (PyFloat (Fin (Rpower b e) false)).
Proof.
  intros Hb. unfold Py.float_pow.
  destruct (Req_dec_T e 0) as [-> | He].
  - rewrite Rzero_true, Rpower_O by auto. reflexivity.
  - rewrite (Rzero_false e), (Rzero_false b), (Rneg_false b) by lra.
    simpl. rewrite pow_pos by assumption. reflexivity.
Qed.

Lemma returns_pow (a b : result pyval) (r e : R) :
  returns a r -> returns b e -> (0 < r)%R -> returns (a ** b) (Rpower r e).
Proof.
  intros Ha Hb Hr. invert_returns; simpl;
    rewrite ?float_pow_pos, ?pow_pos by assumption; solve_returns.
Qed.

Lemma returns_sqrt (a : result pyval) (r : R) :
  returns a r -> (0 <= r)%R -> returns (Py.np_sqrt a) (sqrt r).
Proof.
  intros Ha Hr. invert_returns; simpl; rewrite (Rneg_false r) by assumption;
    solve_returns.
Qed.

(** Results that may be an infinity or NaN: numpy arithmetic never
    raises. *)
Lemma numpy_sqrt (a : result pyval) : numeric a -> numpy (Py.np_sqrt a).
Proof. intros Ha. invert_numeric; simpl; eexists; reflexivity. Qed.

Lemma numpy_arith_r op (a b : result pyval) :
  numeric a -> numpy b -> numpy (Py.binop (Py.arith op) a b).
Proof. intros Ha Hb. invert_numeric; simpl; eexists; reflexivity. Qed.

Lemma numpy_arith_l op (a b : result pyval) :
  numpy a -> numeric b -> numpy (Py.binop (Py.arith op) a b).
Proof. intros Ha Hb. invert_numeric; simpl; eexists; reflexivity. Qed.

Lemma numpy_div_l (a b : result pyval) :
  numpy a -> numeric b -> numpy (a / b).
Proof. intros Ha Hb. invert_numeric; simpl; eexists; reflexivity. Qed.



Lemma numpy_bind (e : result pyval) (k : pyval -> result pyval) :
  numpy e -> (forall y, numpy (k (NpFloat y))) -> numpy (bind e k).
Proof. intros (y & ->) K. simpl. auto. Qed.

Lemma numpy_bind_returns (e : result pyval) (k : pyval -> result pyval)
      (r : R) :
  returns e r -> (forall v, real_of v = Some r -> numpy (k v)) ->
  numpy (bind e k).
Proof. intros (v & -> & Hv) K. simpl. auto. Qed.

Lemma numeric_evaluates (e : result pyval) : numeric e -> evaluates e.
Proof. intros (v & -> & _). exists v. reflexivity. Qed.

Lemma returns_evaluates (e : result pyval) (r : R) : returns e r -> evaluates e.
Proof. intros (v & -> & _). exists v. reflexivity. Qed.



Lemma binop_raise_l op (a b : result pyval) (e : exn) :
  a = Raise e -> Py.binop op a b = Raise e.
Proof. intros ->. reflexivity. Qed.

Lemma bind_raise (a : result pyval) (k : pyval -> result pyval) (e : exn) :
  a = Raise e -> bind a k = Raise e.
Proof. intros ->. reflexivity. Qed.

Lemma bind_returns (a : result pyval) (k : pyval -> result pyval)
      (r : R) (o : result pyval) :
  returns a r -> (forall v, real_of v = Some r -> k v = o) -> bind a k = o.
Proof. intros (v & -> & Hv) K. simpl. apply K, Hv. Qed.

Lemma bind_evaluates (a : result pyval) (k : pyval -> result pyval)
      (o : result pyval) :
  evaluates a -> (forall v, k v = o) -> bind a k = o.
Proof. intros (v & ->) K. simpl. apply K. Qed.

End Operators.

Lemma real_of_py (r : R) : real_of (py r) = Some r.
Proof. reflexivity. Qed.

Create HintDb py_eval.
#[export] Hint Resolve real_of_py : py_eval.

(** Evaluates an expression to the real number it stands for, one operator
    at a time; what is left are the side conditions (a divisor is not zero,
    a radicand is not negative, a base is positive). *)
Ltac eval_py :=
  lazymatch goal with
  | |- returns (Py.num _) _ => apply returns_num
  | |- returns (Ok (py _)) _ => apply returns_py
  | |- returns (Ok _) _ => eapply returns_val; eassumption
  | |- returns (Py.attr _) _ => eapply returns_attr; eassumption
  | |- returns (Py.binop Py.add _ _) _ => eapply returns_add; [eval_py | eval_py]
  | |- returns (Py.binop Py.sub _ _) _ => eapply returns_sub; [eval_py | eval_py]
  | |- returns (Py.binop Py.mul _ _) _ => eapply returns_mul; [eval_py | eval_py]
  | |- returns (Py.binop Py.truediv _ _) _ =>
      eapply returns_div; [eval_py | eval_py | ]
  | |- returns (Py.binop Py.pow _ (Py.num 2)) _ => eapply returns_sq; eval_py
  | |- returns (Py.binop Py.pow _ _) _ =>
      eapply returns_pow; [eval_py | eval_py | ]
  | |- returns (Py.np_sqrt _) _ => eapply returns_sqrt; [eval_py | ]
  | |- returns (bind _ _) _ =>
      eapply returns_bind; [eval_py | intros ? ?; eval_py]
  | |- returns _ _ =>
      first [eassumption | solve [eauto 4 with py_eval] | idtac]
  | |- _ => idtac
  end.

(* ------------------------------------------------------------------ *)
(** ** The exponent beta2 *)

Section Beta2.

Variable self : AssetsDynamics.

Let mu := self.(drift).
Let sigma := self.(volatility).
Let r := self.(r_free).

Lemma discriminant_pos :
  (0 < sigma)%R -> (0 < r)%R -> (0 < discriminant mu sigma r)%R.
Proof.
  intros Hs Hr. unfold discriminant.
  assert (0 < sigma ^ 2)%R by (apply pow_lt; assumption).
  assert (0 < 2 * r / sigma ^ 2)%R by (apply Rdiv_lt_0_compat; lra).
  assert (0 <= (0.5 - mu / sigma ^ 2) ^ 2)%R by (apply pow2_ge_0).
  lra.
Qed.

Lemma beta2_formula_neg :
  (0 < sigma)%R -> (0 < r)%R -> (beta2_formula mu sigma r < 0)%R.
Proof.
  intros Hs Hr. unfold beta2_formula.
  set (a := (0.5 - mu / sigma ^ 2)%R).
  assert (0 < sigma ^ 2)%R by (apply pow_lt; assumption).
  assert (Hk : (0 < 2 * r / sigma ^ 2)%R) by (apply Rdiv_lt_0_compat; lra).
  assert (Ha : (Rabs a < sqrt (a ^ 2 + 2 * r / sigma ^ 2))%R).
  { rewrite <- (sqrt_Rsqr_abs a). apply sqrt_lt_1_alt.
    unfold Rsqr. split; [nra | lra]. }
  pose proof (Rle_abs a). lra.
Qed.

Lemma Liquidation_beta2_returns :
  sigma <> 0%R -> (0 <= discriminant mu sigma r)%R ->
  returns (FirmClaimsLiquidation._beta2 self) (beta2_formula mu sigma r).
Proof.
  intros Hs Hd. unfold FirmClaimsLiquidation._beta2.
  assert (sigma * sigma <> 0)%R by nra.
  eapply returns_eq; [eval_py; try assumption |].
  - fold mu sigma r. unfold discriminant in Hd.
    replace (sigma * sigma)%R with (sigma ^ 2)%R by ring.
    replace ((0.5 - mu / sigma ^ 2) * (0.5 - mu / sigma ^ 2))%R
      with ((0.5 - mu / sigma ^ 2) ^ 2)%R by ring.
    exact Hd.
  - fold mu sigma r. unfold beta2_formula.
    replace (sigma * sigma)%R with (sigma ^ 2)%R by ring.
    replace ((0.5 - mu / sigma ^ 2) * (0.5 - mu / sigma ^ 2))%R
      with ((0.5 - mu / sigma ^ 2) ^ 2)%R by ring.
    reflexivity.
Qed.

Lemma Renegotiation_beta2_returns :
  sigma <> 0%R -> (0 <= discriminant mu sigma r)%R ->
  returns (FirmClaimsRenegotiation._beta2 self) (beta2_formula mu sigma r).
Proof. exact Liquidation_beta2_returns. Qed.

End Beta2.

(* ------------------------------------------------------------------ *)
(** ** AssetsDynamics.value *)

Section Value.

Variable self : AssetsDynamics.

Lemma value_returns (v : pyval) (cash_flow : R) :
  real_of v = Some cash_flow ->
  self.(r_free) <> self.(drift) ->
  returns (value self v)
          (cash_flow * (1 - self.(tau)) / (self.(r_free) - self.(drift))).
Proof.
  intros Hv Hr. unfold value. eval_py. lra.
Qed.

(** A Python scalar over r_free - drift = 0.0: the division raises. *)
Lemma value_raises (cash_flow : R) :
  self.(r_free) = self.(drift) ->
  value self (py cash_flow) = Raise ZeroDivisionError.
Proof.
  intros Hr. unfold value, py, Py.num, of_R. simpl.
  rewrite Rzero_true by lra. reflexivity.
Qed.

(** A numpy scalar over 0.0 does not raise: an infinity, or NaN for 0/0. *)
Lemma value_numpy_infinite (cash_flow : R) :
  self.(r_free) = self.(drift) ->
  (cash_flow * (1 - self.(tau)) <> 0)%R ->
  exists s, value self (NpFloat (of_R cash_flow)) = Ok (NpFloat (Inf s)).
Proof.
  intros Hr Hx. unfold value, Py.num, of_R. simpl.
  rewrite (Rzero_true (_ + - _)), Rzero_false by lra. eauto.
Qed.

Lemma value_numpy (y : float64) : numpy (value self (NpFloat y)).
Proof.
  unfold value. apply numpy_bind; [| intros; eexists; reflexivity].
  apply numpy_div_l.
  - apply (numpy_arith_l Float64.fmul); [eexists; reflexivity |].
    eapply returns_numeric. eval_py.
  - eapply returns_numeric. eval_py.
Qed.

End Value.

#[export] Hint Resolve value_returns : py_eval.

(* ------------------------------------------------------------------ *)
(** ** FirmClaimsLiquidation: the method used as an exponent *)

Section Liquidation.

Import FirmClaimsLiquidation.

Variable self : AssetsDynamics.


Lemma Liquidation_arrow_debreu_default_numbers (cash_flow barrier : R) :
  barrier <> 0%R ->
  _arrow_debreu_default self (py cash_flow) (py barrier) = Raise TypeError.
Proof.
  intros Hb. unfold _arrow_debreu_default, py, of_R. simpl.
  rewrite Rzero_false by assumption. reflexivity.
Qed.

Lemma Liquidation_debt_numbers (coupon cash_flow barrier : R) :
  self.(r_free) <> 0%R -> barrier <> 0%R ->
  debt self (py coupon) (py cash_flow) (py barrier) = Raise TypeError.
Proof.
  intros Hr Hb. unfold debt.
  apply bind_evaluates.
  { eapply returns_evaluates. eval_py. assumption. }
  intros v. apply bind_raise, binop_raise_l.
  apply Liquidation_arrow_debreu_default_numbers. assumption.
Qed.

Lemma Liquidation_equity_numbers (coupon cash_flow barrier : R) :
  self.(r_free) <> 0%R -> self.(r_free) <> self.(drift) -> barrier <> 0%R ->
  equity self (py coupon) (py cash_flow) (py barrier) = Raise TypeError.
Proof.
  intros Hr Hm Hb. unfold equity.
  eapply bind_returns; [eval_py; assumption |].
  intros v Hv.
  apply bind_evaluates; [eapply returns_evaluates; eval_py |].
  intros w. apply bind_raise, binop_raise_l.
  apply Liquidation_arrow_debreu_default_numbers. assumption.
Qed.

Lemma Liquidation_firm_numbers (coupon cash_flow barrier : R) :
  self.(r_free) <> 0%R -> self.(r_free) <> self.(drift) -> barrier <> 0%R ->
  firm self (py coupon) (py cash_flow) (py barrier) = Raise TypeError.
Proof.
  intros Hr Hm Hb. unfold firm. apply binop_raise_l.
  apply Liquidation_equity_numbers; assumption.
Qed.

End Liquidation.

(* ------------------------------------------------------------------ *)
(** ** FirmClaimsRenegotiation: the barrier price and the boundary *)

(** pow(1, y) is 1 for every y, NaN included. *)
Lemma fpow_one_base (s : bool) (y : float64) : Float64.fpow (Fin 1 s) y = one.
Proof.
  unfold Float64.fpow. destruct y as [e s'| s' |].
  - destruct (Rzero e); [reflexivity |].
    rewrite (Rzero_false 1), (Rneg_false 1), Rpower_1_l by lra. reflexivity.
  - rewrite Rabs_R1, Rzero_true by lra. reflexivity.
  - rewrite Rzero_true by lra. reflexivity.
Qed.

Section Renegotiation.

Import FirmClaimsRenegotiation.

Variable self : AssetsDynamics.

Let mu := self.(drift).
Let sigma := self.(volatility).
Let r := self.(r_free).

(** With a volatility other than zero the exponent is always computed: a
    negative discriminant gives NaN, not an exception. *)
Lemma Renegotiation_beta2_numpy : sigma <> 0%R -> numpy (_beta2 self).
Proof.
  intros Hs. unfold _beta2.
  assert (sigma * sigma <> 0)%R by nra.
  apply numpy_bind; [| intros; eexists; reflexivity].
  apply (numpy_arith_r Float64.fsub).
  - eapply returns_numeric. eval_py. assumption.
  - apply numpy_sqrt. eapply returns_numeric. eval_py; assumption.
Qed.

Lemma Renegotiation_arrow_debreu_default_returns
      (v w : pyval) (cash_flow barrier beta2 : R) :
  real_of v = Some cash_flow -> real_of w = Some barrier ->
  returns (_beta2 self) beta2 ->
  barrier <> 0%R -> (0 < cash_flow / barrier)%R ->
  returns (_arrow_debreu_default self v w)
          (Rpower (cash_flow / barrier) beta2).
Proof.
  intros Hv Hw Hb Hz Hp. unfold _arrow_debreu_default. eval_py; assumption.
Qed.

(** At the barrier the price is exactly 1.0. *)
Lemma Renegotiation_arrow_debreu_default_at_barrier (barrier : R) :
  (0 < barrier)%R -> (0 < sigma)%R ->
  _arrow_debreu_default self (py barrier) (py barrier) = Ok (NpFloat one).
Proof.
  intros Hb Hs. unfold _arrow_debreu_default.
  destruct (Renegotiation_beta2_numpy) as (y & E); [fold sigma; lra |].
  rewrite E. unfold py, of_R. simpl.
  rewrite Rzero_false by lra. simpl.
  replace (barrier / barrier)%R with 1%R by (field; lra).
  rewrite fpow_one_base. reflexivity.
Qed.

Section Boundary.

Variables (qv thetav : R).
Hypothesis Hq : self.(q) = Some qv.
Hypothesis Htheta : self.(theta) = Some thetav.

Lemma Renegotiation_debt_renegotiation_numpy (coupon : R) :
  r <> 0%R -> sigma <> 0%R ->
  numpy (debt_renegotiation self (py coupon)).
Proof.
  intros Hr Hs. unfold debt_renegotiation.
  pose proof (Renegotiation_beta2_numpy Hs) as Hb.
  eapply numpy_bind_returns; [eval_py; assumption |].
  intros v Hv.
  apply numpy_bind; [| intros; eexists; reflexivity].
  apply numpy_div_l.
  - apply (numpy_arith_r Float64.fmul); [| assumption].
    eapply returns_numeric. eval_py.
  - apply numpy_numeric. apply (numpy_arith_l Float64.fmul).
    + apply (numpy_arith_l Float64.fsub); [assumption |].
      eapply returns_numeric. eval_py.
    + eapply returns_numeric. eval_py.
Qed.

Lemma Renegotiation_debt_renegotiation_returns
      (v : pyval) (coupon beta2 : R) :
  real_of v = Some coupon ->
  r <> 0%R ->
  (1 - (1 - qv) * thetav <> 0)%R ->
  returns (_beta2 self) beta2 -> beta2 <> 1%R ->
  returns (debt_renegotiation self v)
          (boundary_formula mu r beta2 qv thetav coupon).
Proof.
  intros Hv Hr Hd Hb Hb1. unfold debt_renegotiation, boundary_formula.
  eval_py; try assumption.
  apply Rmult_integral_contrapositive_currified; [lra | assumption].
Qed.

End Boundary.

End Renegotiation.

(* ------------------------------------------------------------------ *)
(** ** FirmClaimsRenegotiation: debt and equity in closed form *)

Section RenegotiationClaims.

Import FirmClaimsRenegotiation.

Variable self : AssetsDynamics.
Variables (qv thetav beta2 : R).
Hypothesis Hq : self.(q) = Some qv.
Hypothesis Htheta : self.(theta) = Some thetav.
Hypothesis Hbeta : returns (_beta2 self) beta2.
Hypothesis Hbeta1 : beta2 <> 1%R.
Hypothesis Hr : self.(r_free) <> 0%R.
Hypothesis Hmu : self.(r_free) <> self.(drift).
Hypothesis Hsplit : (1 - (1 - qv) * thetav <> 0)%R.

Variable coupon : R.

Let b := boundary_formula self.(drift) self.(r_free) beta2 qv thetav coupon.

Hypothesis Hb : b <> 0%R.

Lemma Renegotiation_debt_returns (cash_flow : R) :
  (0 < cash_flow / b)%R ->
  returns (debt self (py coupon) (py cash_flow))
          (debt_formula self beta2 qv thetav b coupon cash_flow).
Proof.
  intros Hx.
  pose proof (fun v => Renegotiation_debt_renegotiation_returns
                         self qv thetav Hq Htheta v coupon beta2) as HB.
  pose proof (fun w => Renegotiation_arrow_debreu_default_returns
                         self (py cash_flow) w cash_flow b beta2) as HA.
  fold b in HB.
  unfold debt, debt_formula, value_formula. eval_py; try assumption.
Qed.

Lemma Renegotiation_equity_returns (cash_flow : R) :
  (0 < cash_flow / b)%R ->
  returns (equity self (py coupon) (py cash_flow))
          (equity_formula self beta2 qv thetav b coupon cash_flow).
Proof.
  intros Hx.
  pose proof (fun v => Renegotiation_debt_renegotiation_returns
                         self qv thetav Hq Htheta v coupon beta2) as HB.
  pose proof (fun w => Renegotiation_arrow_debreu_default_returns
                         self (py cash_flow) w cash_flow b beta2) as HA.
  fold b in HB.
  unfold equity, equity_formula, value_formula. eval_py; try assumption.
Qed.

(** firm is the sum of the two values it is made of. *)
Lemma Renegotiation_firm_returns (cash_flow : R) :
  (0 < cash_flow / b)%R ->
  returns (firm self (py coupon) (py cash_flow))
          (equity_formula self beta2 qv thetav b coupon cash_flow
           + debt_formula self beta2 qv thetav b coupon cash_flow).
Proof.
  intros Hx. unfold firm. apply returns_add.
  - apply Renegotiation_equity_returns, Hx.
  - apply Renegotiation_debt_returns, Hx.
Qed.

End RenegotiationClaims.

(* ------------------------------------------------------------------ *)
(** ** Real analysis of the debt value *)

Section DebtAnalysis.

(** With a negative exponent the power falls as the base grows. *)
Lemma Rpower_antitone (a c e : R) :
  (0 < a)%R -> (a <= c)%R -> (e <= 0)%R -> (Rpower c e <= Rpower a e)%R.
Proof.
  intros Ha Hac He.
  replace e with (- - e)%R by ring. rewrite !(Rpower_Ropp _ (- e)).
  apply Rinv_le_contravar.
  - unfold Rpower. apply exp_pos.
  - apply Rle_Rpower_l; lra.
Qed.

Lemma Rpower_pos (a e : R) : (0 < Rpower a e)%R.
Proof. unfold Rpower. apply exp_pos. Qed.

(** beta2 / (beta2 - 1) lies strictly between 0 and 1. *)
Lemma exponent_ratio (beta2 : R) :
  (beta2 < 0)%R -> (0 < beta2 / (beta2 - 1) < 1)%R.
Proof.
  intros Hb.
  assert (H1 : (beta2 - 1 < 0)%R) by lra.
  assert (H2 : (0 < / - (beta2 - 1))%R) by (apply Rinv_0_lt_compat; lra).
  replace (beta2 / (beta2 - 1))%R with (- beta2 * / - (beta2 - 1))%R
    by (field; lra).
  split.
  - apply Rmult_lt_0_compat; lra.
  - apply (Rmult_lt_reg_r (- (beta2 - 1))); [lra |].
    rewrite Rmult_assoc, Rinv_l by lra. lra.
Qed.

Variable self : AssetsDynamics.
Variables (qv thetav beta2 coupon : R).

Let mu := self.(drift).
Let r := self.(r_free).
Let b := boundary_formula mu r beta2 qv thetav coupon.

Hypothesis Hcoupon : (0 < coupon)%R.
Hypothesis Hr : (0 < r)%R.
Hypothesis Hmu : (mu < r)%R.
Hypothesis Htau : (0 <= self.(tau) < 1)%R.
Hypothesis Halpha : (0 <= self.(alpha) <= 1)%R.
Hypothesis Hq : (0 <= qv <= 1)%R.
Hypothesis Htheta : (0 <= thetav <= 1)%R.
Hypothesis Hsplit : ((1 - qv) * thetav < 1)%R.
Hypothesis Hbeta : (beta2 < 0)%R.

Lemma boundary_expanded :
  b = ((r - mu) * (coupon / r)
       * (beta2 / (beta2 - 1)) / (1 - (1 - qv) * thetav))%R.
Proof. unfold b, boundary_formula. field. lra. Qed.

Lemma boundary_pos : (0 < b)%R.
Proof.
  rewrite boundary_expanded.
  pose proof (exponent_ratio beta2 Hbeta) as [Hrho _].
  assert (0 < coupon / r)%R by (apply Rdiv_lt_0_compat; lra).
  apply Rdiv_lt_0_compat; [| lra].
  apply Rmult_lt_0_compat; [| assumption].
  apply Rmult_lt_0_compat; lra.
Qed.

(** What debt holders recover at the boundary is less than the riskless
    value of the coupon. *)
Lemma recovery_below_riskless :
  (qv * (1 - self.(alpha)) * value_formula self b
   + (1 - qv) * (1 - thetav) * value_formula self b
   - coupon / r < 0)%R.
Proof.
  pose proof (exponent_ratio beta2 Hbeta) as [Hrho0 Hrho1].
  set (rho := (beta2 / (beta2 - 1))%R) in *.
  set (D := (1 - (1 - qv) * thetav)%R).
  set (N := (qv * (1 - self.(alpha)) + (1 - qv) * (1 - thetav))%R).
  set (t := (1 - self.(tau))%R).
  assert (HD : (0 < D)%R) by (unfold D; lra).
  assert (HN : (0 <= N <= D)%R) by (unfold N, D; split; nra).
  assert (Ht : (0 < t <= 1)%R) by (unfold t; lra).
  assert (Hc : (0 < coupon / r)%R) by (apply Rdiv_lt_0_compat; lra).
  assert (HV : value_formula self b = (coupon / r * (t * rho / D))%R).
  { unfold value_formula. rewrite boundary_expanded. fold mu r t rho D.
    field. lra. }
  rewrite HV.
  assert (Hk : (N * (t * rho / D) < 1)%R).
  { assert (Htr : (0 < t * rho < 1)%R) by nra.
    replace (N * (t * rho / D))%R with (N * (t * rho) / D)%R
      by (field; lra).
    apply (Rmult_lt_reg_r D); [assumption |].
    unfold Rdiv. rewrite Rmult_assoc, Rinv_l by lra. nra. }
  replace (qv * (1 - self.(alpha)) * (coupon / r * (t * rho / D))
           + (1 - qv) * (1 - thetav) * (coupon / r * (t * rho / D))
           - coupon / r)%R
    with (coupon / r * (N * (t * rho / D) - 1))%R
    by (unfold N; ring).
  nra.
Qed.

Lemma debt_formula_bounded (cash_flow : R) :
  (debt_formula self beta2 qv thetav b coupon cash_flow <= coupon / r)%R.
Proof.
  unfold debt_formula. fold r.
  pose proof recovery_below_riskless as Hk.
  pose proof (Rpower_pos (cash_flow / b) beta2) as Hp.
  nra.
Qed.

Lemma debt_formula_monotone (x1 x2 : R) :
  (b <= x1)%R -> (x1 <= x2)%R ->
  (debt_formula self beta2 qv thetav b coupon x1
   <= debt_formula self beta2 qv thetav b coupon x2)%R.
Proof.
  intros H1 H2. unfold debt_formula. fold r.
  pose proof recovery_below_riskless as Hk.
  pose proof boundary_pos as Hb.
  assert (Hx1 : (0 < x1 / b)%R) by (apply Rdiv_lt_0_compat; lra).
  assert (Hx : (x1 / b <= x2 / b)%R).
  { unfold Rdiv. apply Rmult_le_compat_r; [| assumption].
    apply Rlt_le, Rinv_0_lt_compat, Hb. }
  pose proof (Rpower_antitone (x1 / b) (x2 / b) beta2 Hx1 Hx (Rlt_le _ _ Hbeta)).
  nra.
Qed.

End DebtAnalysis.

(* ------------------------------------------------------------------ *)
(** ** FirmClaimsRenegotiation without q or theta *)

Section MissingSplit.

Import FirmClaimsRenegotiation.

Variable self : AssetsDynamics.
Hypothesis Hnone : self.(q) = None \/ self.(theta) = None.
Hypothesis Hr : self.(r_free) <> 0%R.
Hypothesis Hs : self.(volatility) <> 0%R.






End MissingSplit.

(* ------------------------------------------------------------------ *)
(** ** The optimizer's answer *)

Section MaxCoupon.

Import FirmClaimsRenegotiation.

Variable minimize :
  (pyval -> result pyval) -> R -> result optimize.OptimizeResult.
Variable self : AssetsDynamics.
Variable cash_flow : pyval.

(** Only the first entry of the solution array is read. *)
Lemma max_coupon_reads_x (res : optimize.OptimizeResult) (c : float64) :
  minimize (fun coupon => _obj_max_coupon self coupon cash_flow) 0.001
    = Ok res ->
  nth_error res.(optimize.x) 0 = Some c ->
  max_coupon minimize self cash_flow = Ok (NpFloat c).
Proof.
  intros Hm Hx. unfold max_coupon. rewrite Hm. cbn [bind]. rewrite Hx.
  reflexivity.
Qed.

End MaxCoupon.

Close Scope py_scope.

(* ------------------------------------------------------------------ *)
(** ** Worked values *)

Example beta2_formula_unit : beta2_formula 0 1 1 = (-1)%R.
Proof.
  unfold beta2_formula.
  replace ((0.5 - 0 / 1 ^ 2) ^ 2 + 2 * 1 / 1 ^ 2)%R with (1.5 * 1.5)%R
    by (simpl; lra).
  rewrite sqrt_square by lra. simpl. lra.
Qed.

Example beta2_unit :
  returns (FirmClaimsRenegotiation._beta2 unit_dynamics) (-1).
Proof.
  rewrite <- beta2_formula_unit.
  apply (Renegotiation_beta2_returns unit_dynamics); simpl; [lra |].
  apply Rlt_le, (discriminant_pos unit_dynamics); simpl; lra.
Qed.

(** Twice the barrier: the price is 2 ** -1. *)
Example arrow_debreu_default_unit :
  returns (FirmClaimsRenegotiation._arrow_debreu_default
             unit_dynamics (py 2) (py 1)) (/ 2).
Proof.
  eapply returns_eq.
  - apply (Renegotiation_arrow_debreu_default_returns
             unit_dynamics (py 2) (py 1) 2 1 (-1));
      try reflexivity; try apply beta2_unit; lra.
  - replace (2 / 1)%R with 2%R by lra.
    change (-1)%R with (Ropp 1).
    rewrite Rpower_Ropp, Rpower_1 by lra. reflexivity.
Qed.

(** Coupon 1 on the round dynamics: the boundary is one half. *)
Example debt_renegotiation_unit :
  returns (FirmClaimsRenegotiation.debt_renegotiation unit_dynamics (py 1))
          0.5.
Proof.
  eapply returns_eq.
  - apply (Renegotiation_debt_renegotiation_returns
             unit_dynamics 1 0.2 eq_refl eq_refl (py 1) 1 (-1));
      try reflexivity; try apply beta2_unit; simpl; lra.
  - unfold boundary_formula. simpl. lra.
Qed.

(* ------------------------------------------------------------------ *)
(** ** The properties of the specification *)

(** C1: the barrier price is (cash_flow / barrier) ** beta2, and 1 at the
    barrier.  This holds in FirmClaimsRenegotiation.  In
    FirmClaimsLiquidation the exponent is the method [self._beta2] itself,
    not its result, and the same call raises TypeError. *)
Theorem arrow_debreu_default_renegotiation_only
        (self : AssetsDynamics) (barrier : R) :
  (0 < barrier)%R -> (0 < self.(volatility))%R ->
  (forall cash_flow beta2 : R,
      returns (FirmClaimsRenegotiation._beta2 self) beta2 ->
      (0 < cash_flow / barrier)%R ->
      returns (FirmClaimsRenegotiation._arrow_debreu_default
                 self (py cash_flow) (py barrier))
              (Rpower (cash_flow / barrier) beta2))
  /\ FirmClaimsRenegotiation._arrow_debreu_default
       self (py barrier) (py barrier) = Ok (NpFloat one)
  /\ (forall cash_flow : R,
         FirmClaimsLiquidation._arrow_debreu_default
           self (py cash_flow) (py barrier) = Raise TypeError).
Proof.
  intros Hb Hs. repeat split.
  - intros cash_flow beta2 Hbeta Hx.
    apply Renegotiation_arrow_debreu_default_returns;
      try assumption; try reflexivity. lra.
  - apply Renegotiation_arrow_debreu_default_at_barrier; assumption.
  - intros cash_flow.
    apply Liquidation_arrow_debreu_default_numbers. lra.
Qed.

Lemma arrow_debreu_default_renegotiation_only_witness :
  FirmClaimsLiquidation._arrow_debreu_default example_dynamics (py 1) (py 1)
  = Raise TypeError.
Proof.
  apply (arrow_debreu_default_renegotiation_only example_dynamics 1);
    simpl; lra.
Defined.

(** C2: firm is equity plus debt.  In FirmClaimsLiquidation no sum is ever
    formed: equity, the first operand, already raises TypeError (the
    method used as an exponent), and so does firm. *)
Theorem liquidation_firm_type_error
        (self : AssetsDynamics) (coupon cash_flow boundary : R) :
  self.(r_free) <> 0%R -> self.(r_free) <> self.(drift) -> boundary <> 0%R ->
  FirmClaimsLiquidation.firm self (py coupon) (py cash_flow) (py boundary)
  = Raise TypeError.
Proof. apply Liquidation_firm_numbers. Qed.

Lemma liquidation_firm_type_error_witness :
  FirmClaimsLiquidation.firm example_dynamics (py 1) (py 2) (py 1)
  = Raise TypeError.
Proof.
  apply (liquidation_firm_type_error example_dynamics 1 2 1); simpl; lra.
Defined.

(** C3: with r_free <> 0, volatility > 0 and 1 - (1 - q) * theta <> 0,
    debt_renegotiation(coupon) never raises, and when _beta2 computes the
    number beta2 (other than 1, as every negative number is) it returns
    (r_free - drift) * (coupon / r_free) * beta2
    / ((beta2 - 1) * (1 - (1 - q) * theta)). *)
Theorem debt_renegotiation_closed_form
        (self : AssetsDynamics) (coupon qv thetav : R) :
  self.(r_free) <> 0%R -> (0 < self.(volatility))%R ->
  self.(q) = Some qv -> self.(theta) = Some thetav ->
  (1 - (1 - qv) * thetav <> 0)%R ->
  numpy (FirmClaimsRenegotiation.debt_renegotiation self (py coupon))
  /\ forall beta2 : R,
      returns (FirmClaimsRenegotiation._beta2 self) beta2 ->
      beta2 <> 1%R ->
      returns (FirmClaimsRenegotiation.debt_renegotiation self (py coupon))
              ((self.(r_free) - self.(drift)) * (coupon / self.(r_free))
               * beta2 / ((beta2 - 1) * (1 - (1 - qv) * thetav))).
Proof.
  intros Hr Hs Hq Ht Hd. split.
  - apply (Renegotiation_debt_renegotiation_numpy self qv thetav);
      try assumption. lra.
  - intros beta2 Hb Hb1.
    apply (Renegotiation_debt_renegotiation_returns self qv thetav);
      try assumption. reflexivity.
Qed.

Lemma debt_renegotiation_closed_form_witness :
  returns (FirmClaimsRenegotiation.debt_renegotiation
             example_renegotiation (py 1))
          (boundary_formula 0.01 0.04 (beta2_formula 0.01 0.25 0.04)
                            1 (0.5 * 0.4) 1).
Proof.
  assert (Hs : (0 < volatility example_renegotiation)%R) by (simpl; lra).
  assert (Hr : (0 < r_free example_renegotiation)%R) by (simpl; lra).
  apply (debt_renegotiation_closed_form example_renegotiation 1 1 (0.5 * 0.4));
    simpl; try reflexivity; try lra.
  - apply (Renegotiation_beta2_returns example_renegotiation); simpl.
    + lra.
    + apply Rlt_le, (discriminant_pos example_renegotiation Hs Hr).
  - pose proof (beta2_formula_neg example_renegotiation Hs Hr) as Hn.
    simpl in Hn. lra.
Defined.

(** C4: in the renegotiation model, with coupon > 0 and parameters in
    their domain, debt(coupon, cash_flow) does not decrease as cash_flow
    grows from the renegotiation boundary upwards, and never exceeds
    coupon / r_free. *)
Theorem renegotiation_debt_monotone_and_bounded
        (self : AssetsDynamics) (coupon qv thetav : R) :
  (0 < coupon)%R ->
  (0 < self.(volatility))%R -> (0 < self.(r_free))%R ->
  (self.(drift) < self.(r_free))%R ->
  (0 <= self.(tau) < 1)%R -> (0 <= self.(alpha) <= 1)%R ->
  self.(q) = Some qv -> (0 <= qv <= 1)%R ->
  self.(theta) = Some thetav -> (0 <= thetav <= 1)%R ->
  ((1 - qv) * thetav < 1)%R ->
  exists boundary : R,
    returns (FirmClaimsRenegotiation.debt_renegotiation self (py coupon))
            boundary
    /\ forall x1 x2 : R,
        (boundary <= x1)%R -> (x1 <= x2)%R ->
        exists d1 d2 : R,
          returns (FirmClaimsRenegotiation.debt self (py coupon) (py x1)) d1
          /\ returns (FirmClaimsRenegotiation.debt self (py coupon) (py x2)) d2
          /\ (d1 <= d2)%R /\ (d2 <= coupon / self.(r_free))%R.
Proof.
  intros Hc Hs Hr Hmu Htau Halpha Hq Hqv Ht Htv Hsplit.
  set (beta2 := beta2_formula self.(drift) self.(volatility) self.(r_free)).
  assert (Hbeta : returns (FirmClaimsRenegotiation._beta2 self) beta2).
  { apply Renegotiation_beta2_returns; [lra |].
    apply Rlt_le, discriminant_pos; assumption. }
  assert (Hneg : (beta2 < 0)%R) by (apply beta2_formula_neg; assumption).
  set (b := boundary_formula self.(drift) self.(r_free) beta2 qv thetav coupon).
  assert (Hb : (0 < b)%R) by (apply boundary_pos; assumption).
  exists b. split.
  - apply (Renegotiation_debt_renegotiation_returns self qv thetav);
      try assumption; try reflexivity; lra.
  - intros x1 x2 H1 H2.
    exists (debt_formula self beta2 qv thetav b coupon x1),
           (debt_formula self beta2 qv thetav b coupon x2).
    repeat split.
    + apply Renegotiation_debt_returns; try assumption; try lra;
        fold b; try lra.
      apply Rdiv_lt_0_compat; lra.
    + apply Renegotiation_debt_returns; try assumption; try lra;
        fold b; try lra.
      apply Rdiv_lt_0_compat; lra.
    + apply debt_formula_monotone; assumption.
    + apply debt_formula_bounded; assumption.
Qed.

Lemma renegotiation_debt_monotone_and_bounded_witness :
  exists boundary : R,
    returns (FirmClaimsRenegotiation.debt_renegotiation
               example_renegotiation (py 0.05))
            boundary
    /\ forall x1 x2 : R,
        (boundary <= x1)%R -> (x1 <= x2)%R ->
        exists d1 d2 : R,
          returns (FirmClaimsRenegotiation.debt
                     example_renegotiation (py 0.05) (py x1)) d1
          /\ returns (FirmClaimsRenegotiation.debt
                        example_renegotiation (py 0.05) (py x2)) d2
          /\ (d1 <= d2)%R /\ (d2 <= 0.05 / 0.04)%R.
Proof.
  apply (renegotiation_debt_monotone_and_bounded
           example_renegotiation 0.05 1 (0.5 * 0.4));
    simpl; try reflexivity; lra.
Defined.



(** C6, as stated: with r_free equal to drift, value(cash_flow) yields an
    infinity and no exception.  False for a Python scalar: value(1) on
    drift = r_free = 0.04 raises ZeroDivisionError. *)
Lemma value_infinity_refuted :
  ~ (forall (self : AssetsDynamics) (cash_flow : R),
        self.(r_free) = self.(drift) ->
        exists s : bool,
          value self (py cash_flow) = Ok (PyFloat (Inf s))
          \/ value self (py cash_flow) = Ok (NpFloat (Inf s))).
Proof.
  intros H.
  destruct (H equal_rates_dynamics 1%R eq_refl) as (s & [E | E]);
    rewrite (value_raises equal_rates_dynamics 1 eq_refl) in E;
    discriminate E.
Qed.

(** C6, amended: for every Python scalar cash_flow, when r_free equals
    drift, value(cash_flow) raises ZeroDivisionError. *)
Theorem value_zero_division (self : AssetsDynamics) (cash_flow : R) :
  self.(r_free) = self.(drift) ->
  value self (py cash_flow) = Raise ZeroDivisionError.
Proof. apply value_raises. Qed.

Lemma value_zero_division_witness :
  value equal_rates_dynamics (py 1) = Raise ZeroDivisionError.
Proof. apply (value_zero_division equal_rates_dynamics 1). reflexivity. Defined.

(** C7: FirmClaimsLiquidation.debt(coupon, cash_flow, boundary) should be
    coupon / r_free plus the barrier price times the recovery shortfall.
    For boundary > 0 and cash_flow >= boundary the call raises TypeError
    instead: the barrier price is never computed. *)
Theorem liquidation_debt_type_error
        (self : AssetsDynamics) (coupon cash_flow boundary : R) :
  self.(r_free) <> 0%R -> (0 < boundary)%R -> (boundary <= cash_flow)%R ->
  FirmClaimsLiquidation.debt self (py coupon) (py cash_flow) (py boundary)
  = Raise TypeError.
Proof.
  intros Hr Hb Hx. apply Liquidation_debt_numbers; [assumption | lra].
Qed.

Lemma liquidation_debt_type_error_witness :
  FirmClaimsLiquidation.debt example_dynamics (py 1) (py 2) (py 1)
  = Raise TypeError.
Proof.
  apply (liquidation_debt_type_error example_dynamics 1 2 1); simpl; lra.
Defined.

(** C8, as stated: when the minimization reports failure, max_coupon does
    not return a coupon.  False: with an optimizer that hands the seed
    back flagged as failed, max_coupon returns the seed. *)
Lemma max_coupon_hides_failure :
  ~ (forall (minimize : (pyval -> result pyval) -> R
                        -> result optimize.OptimizeResult)
            (self : AssetsDynamics) (cash_flow : R)
            (res : optimize.OptimizeResult),
        minimize (fun coupon =>
                    FirmClaimsRenegotiation._obj_max_coupon
                      self coupon (py cash_flow)) 0.001
          = Ok res ->
        res.(optimize.success) = false ->
        forall coupon : pyval,
          FirmClaimsRenegotiation.max_coupon minimize self (py cash_flow)
          <> Ok coupon).
Proof.
  intros H.
  apply (H stalled_minimize example_renegotiation 1%R _ eq_refl eq_refl
           (NpFloat (of_R 0.001))).
  reflexivity.
Qed.

(** C8, amended: max_coupon returns the first entry of the optimizer's
    solution array, whatever the optimizer's success flag and status
    say. *)
Theorem max_coupon_returns_first_entry
        (minimize : (pyval -> result pyval) -> R
                    -> result optimize.OptimizeResult)
        (self : AssetsDynamics) (cash_flow : pyval)
        (res : optimize.OptimizeResult) (c : float64) :
  minimize (fun coupon =>
              FirmClaimsRenegotiation._obj_max_coupon self coupon cash_flow)
           0.001
    = Ok res ->
  nth_error res.(optimize.x) 0 = Some c ->
  FirmClaimsRenegotiation.max_coupon minimize self cash_flow
  = Ok (NpFloat c).
Proof. apply max_coupon_reads_x. Qed.

Lemma max_coupon_returns_first_entry_witness :
  FirmClaimsRenegotiation.max_coupon
    stalled_minimize example_renegotiation (py 1)
  = Ok (NpFloat (of_R 0.001)).
Proof.
  apply (max_coupon_returns_first_entry
           stalled_minimize example_renegotiation (py 1)
           {| optimize.x := [of_R 0.001]; optimize.success := false;
              optimize.status := 2%Z |});
    reflexivity.
Defined.

(** C9: two AssetsDynamics that agree on drift, volatility, r_free, tau and
    alpha give the same result (value or exception) in every
    FirmClaimsLiquidation operation, whatever their q, eta and theta. *)
Theorem liquidation_ignores_renegotiation_fields
        (a1 a2 : AssetsDynamics)
        (coupon cash_flow debt_liquidation : pyval) :
  a1.(drift) = a2.(drift) -> a1.(volatility) = a2.(volatility) ->
  a1.(r_free) = a2.(r_free) -> a1.(tau) = a2.(tau) ->
  a1.(alpha) = a2.(alpha) ->
  FirmClaimsLiquidation.equity a1 coupon cash_flow debt_liquidation
  = FirmClaimsLiquidation.equity a2 coupon cash_flow debt_liquidation
  /\ FirmClaimsLiquidation.debt a1 coupon cash_flow debt_liquidation
     = FirmClaimsLiquidation.debt a2 coupon cash_flow debt_liquidation
  /\ FirmClaimsLiquidation.firm a1 coupon cash_flow debt_liquidation
     = FirmClaimsLiquidation.firm a2 coupon cash_flow debt_liquidation.
Proof.
  destruct a1 as [d1 v1 r1 t1 al1 q1 e1 th1].
  destruct a2 as [d2 v2 r2 t2 al2 q2 e2 th2].
  cbn [drift volatility r_free tau alpha].
  intros -> -> -> -> ->.
  repeat split.
Qed.

Lemma liquidation_ignores_renegotiation_fields_witness :
  FirmClaimsLiquidation.firm example_dynamics (py 1) (py 2) (py 1)
  = FirmClaimsLiquidation.firm example_renegotiation (py 1) (py 2) (py 1).
Proof.
  apply (liquidation_ignores_renegotiation_fields
           example_dynamics example_renegotiation (py 1) (py 2) (py 1));
    reflexivity.
Defined.




(* ------------------------------------------------------------------ *)
(** ** Further properties: FirmClaimsLiquidation *)

Open Scope py_scope.

Section Outcomes.










End Outcomes.


(* ------------------------------------------------------------------ *)
(** ** Further properties: numpy scalars do not raise *)

#[export] Hint Resolve value_numpy : py_eval.


Section NumpyOutcomes.

Import FirmClaimsRenegotiation.

Variable self : AssetsDynamics.
Variables (qv thetav : R).
Hypothesis Hq : self.(q) = Some qv.
Hypothesis Htheta : self.(theta) = Some thetav.
Hypothesis Hr : self.(r_free) <> 0%R.
Hypothesis Hs : self.(volatility) <> 0%R.




End NumpyOutcomes.



(** X3: value on a numpy scalar when r_free equals drift: the divisor is
    +0.0, so the result is +inf or -inf with the sign of
    cash_flow * (1 - tau), and NaN when that product is zero.  Nothing is
    raised. *)
Theorem value_numpy_at_equal_rates
        (self : AssetsDynamics) (cash_flow : R) :
  self.(r_free) = self.(drift) ->
  ((0 < cash_flow * (1 - self.(tau)))%R ->
   value self (NpFloat (of_R cash_flow)) = Ok (NpFloat (Inf false)))
  /\ ((cash_flow * (1 - self.(tau)) < 0)%R ->
      value self (NpFloat (of_R cash_flow)) = Ok (NpFloat (Inf true)))
  /\ ((cash_flow * (1 - self.(tau)) = 0)%R ->
      value self (NpFloat (of_R cash_flow)) = Ok (NpFloat NaN)).
Proof.
  intros Hr.
  assert (Hx : forall t : R,
             (0 < cash_flow * t)%R ->
             xorb (Rneg cash_flow) (Rneg t) = false).
  { intros t Ht. destruct (Rlt_dec cash_flow 0).
    - rewrite (Rneg_true cash_flow), (Rneg_true t) by nra. reflexivity.
    - rewrite (Rneg_false cash_flow), (Rneg_false t) by nra. reflexivity. }
  assert (Hy : forall t : R,
             (cash_flow * t < 0)%R ->
             xorb (Rneg cash_flow) (Rneg t) = true).
  { intros t Ht. destruct (Rlt_dec cash_flow 0).
    - rewrite (Rneg_true cash_flow), (Rneg_false t) by nra. reflexivity.
    - rewrite (Rneg_false cash_flow), (Rneg_true t) by nra. reflexivity. }
  assert (Hz : Rneg self.(r_free) && negb (Rneg self.(drift)) = false)
    by (rewrite Hr; destruct (Rneg self.(drift)); reflexivity).
  repeat split; intros Hp; unfold value, Py.num, of_R; simpl;
    rewrite (Rzero_true (_ + - _)) by lra.
  - rewrite (Rzero_false (cash_flow * _)), (Rzero_false (1 + - _)) by nra.
    rewrite Hz, xorb_false_r, Hx by lra. reflexivity.
  - rewrite (Rzero_false (cash_flow * _)), (Rzero_false (1 + - _)) by nra.
    rewrite Hz, xorb_false_r, Hy by lra. reflexivity.
  - rewrite (Rzero_true (cash_flow * _)) by lra. reflexivity.
Qed.

Lemma value_numpy_at_equal_rates_witness :
  value equal_rates_dynamics (NpFloat (of_R 1)) = Ok (NpFloat (Inf false)).
Proof.
  apply (value_numpy_at_equal_rates equal_rates_dynamics 1);
    simpl; try reflexivity; lra.
Defined.

(* ------------------------------------------------------------------ *)
(** ** Further properties: powers with a negative exponent *)

Section NegativeExponent.

Variable e : R.
Hypothesis He : (e < 0)%R.





End NegativeExponent.

(* ------------------------------------------------------------------ *)
(** ** Further properties: closed forms for any finite arguments *)

Section AnyKind.

Import FirmClaimsRenegotiation.

Variable self : AssetsDynamics.
Variables (qv thetav beta2 : R).
Hypothesis Hq : self.(q) = Some qv.
Hypothesis Htheta : self.(theta) = Some thetav.
Hypothesis Hbeta : returns (_beta2 self) beta2.
Hypothesis Hbeta1 : beta2 <> 1%R.
Hypothesis Hr : self.(r_free) <> 0%R.
Hypothesis Hmu : self.(r_free) <> self.(drift).
Hypothesis Hsplit : (1 - (1 - qv) * thetav <> 0)%R.

Variables (vc vx : pyval) (coupon cash_flow : R).
Hypothesis Hvc : real_of vc = Some coupon.
Hypothesis Hvx : real_of vx = Some cash_flow.

Let b := boundary_formula self.(drift) self.(r_free) beta2 qv thetav coupon.

Hypothesis Hb : b <> 0%R.
Hypothesis Hx : (0 < cash_flow / b)%R.

(** The arguments may be Python numbers or numpy scalars. *)
Lemma debt_returns_any :
  returns (debt self vc vx)
          (debt_formula self beta2 qv thetav b coupon cash_flow).
Proof.
  pose proof (fun v => Renegotiation_debt_renegotiation_returns
                         self qv thetav Hq Htheta v coupon beta2) as HB.
  pose proof (fun w => Renegotiation_arrow_debreu_default_returns
                         self vx w cash_flow b beta2) as HA.
  fold b in HB.
  unfold debt, debt_formula, value_formula. eval_py; try assumption.
Qed.

Lemma equity_returns_any :
  returns (equity self vc vx)
          (equity_formula self beta2 qv thetav b coupon cash_flow).
Proof.
  pose proof (fun v => Renegotiation_debt_renegotiation_returns
                         self qv thetav Hq Htheta v coupon beta2) as HB.
  pose proof (fun w => Renegotiation_arrow_debreu_default_returns
                         self vx w cash_flow b beta2) as HA.
  fold b in HB.
  unfold equity, equity_formula, value_formula. eval_py; try assumption.
Qed.

End AnyKind.

(* ------------------------------------------------------------------ *)
(** ** Further properties: the renegotiation model on its domain *)

Section Domain.

Import FirmClaimsRenegotiation.

Variable self : AssetsDynamics.
Variables (qv thetav coupon : R).
Hypothesis Hdom : in_domain self qv thetav.
Hypothesis Hcoupon : (0 < coupon)%R.

Let mu := self.(drift).
Let r := self.(r_free).
Let beta2 := beta2_formula self.(drift) self.(volatility) self.(r_free).
Let b := boundary_formula mu r beta2 qv thetav coupon.
Let D := (1 - (1 - qv) * thetav)%R.
Let N := (qv * (1 - self.(alpha)) + (1 - qv) * (1 - thetav))%R.
Let k := ((1 - self.(tau)) / (r - mu))%R.
Let T := ((1 - self.(tau)) * (coupon / r))%R.

Lemma domain_beta2 : returns (_beta2 self) beta2 /\ (beta2 < 0)%R.
Proof.
  destruct Hdom as (Hs & Hr & _). split.
  - apply Renegotiation_beta2_returns; [lra |].
    apply Rlt_le, discriminant_pos; assumption.
  - apply beta2_formula_neg; assumption.
Qed.

Lemma domain_signs :
  (0 < r)%R /\ (0 < r - mu)%R /\ (0 < D <= 1)%R /\ (0 <= N <= D)%R
  /\ (0 < k)%R /\ (0 <= T)%R /\ (0 < coupon / r)%R.
Proof.
  destruct Hdom as (Hs & Hr & Hm & Ht & Ha & _ & Hq & _ & Hth & Hsp).
  fold r in Hr. fold mu r in Hm.
  assert (0 < coupon / r)%R by (apply Rdiv_lt_0_compat; lra).
  assert (H1 : (0 <= (1 - qv) * thetav)%R) by nra.
  assert (H2 : (0 <= qv * (1 - self.(alpha)))%R) by nra.
  assert (H3 : (qv * (1 - self.(alpha)) <= qv)%R) by nra.
  assert (H4 : (0 <= (1 - qv) * (1 - thetav))%R) by nra.
  assert (H5 : (0 < k)%R) by (unfold k; apply Rdiv_lt_0_compat; lra).
  assert (H6 : (0 <= T)%R) by (unfold T; nra).
  unfold D, N. repeat split; lra.
Qed.

Lemma domain_boundary_pos : (0 < b)%R.
Proof.
  destruct Hdom as (Hs & Hr & Hm & Ht & Ha & _ & Hq & _ & Hth & Hsp).
  destruct domain_beta2 as [_ Hb].
  apply (boundary_pos self); assumption.
Qed.

Lemma domain_boundary_returns (v : pyval) (c : R) :
  real_of v = Some c ->
  returns (debt_renegotiation self v)
          (boundary_formula mu r beta2 qv thetav c).
Proof.
  intros Hv.
  destruct Hdom as (Hs & Hr & Hm & Ht & Ha & Hq & Hqv & Hth & Hthv & Hsp).
  destruct domain_beta2 as [Hb Hn].
  apply (Renegotiation_debt_renegotiation_returns self qv thetav);
    try assumption; lra.
Qed.

(** The closed forms are what the methods return for a positive cash
    flow, given as a Python number or as a numpy scalar. *)
Lemma domain_returns (vc vx : pyval) (x : R) :
  real_of vc = Some coupon -> real_of vx = Some x ->
  (0 < x)%R ->
  returns (_arrow_debreu_default self vx (py b)) (Rpower (x / b) beta2)
  /\ returns (value self vx) (k * x)
  /\ returns (debt self vc vx)
             (coupon / r + Rpower (x / b) beta2 * (N * (k * b) - coupon / r))
  /\ returns (equity self vc vx)
             (k * x - T + Rpower (x / b) beta2 * (T - D * (k * b))).
Proof.
  intros Hvc Hvx Hx.
  destruct Hdom as (Hs & Hr & Hm & Ht & Ha & Hq & Hqv & Hth & Hthv & Hsp).
  destruct domain_beta2 as [Hb Hn].
  pose proof domain_boundary_pos as Hbp.
  assert (Hxb : (0 < x / b)%R) by (apply Rdiv_lt_0_compat; lra).
  fold r in Hr. fold mu r in Hm.
  repeat split.
  - apply Renegotiation_arrow_debreu_default_returns;
      try reflexivity; try assumption. lra.
  - eapply returns_eq;
      [apply value_returns; [eassumption | fold mu r; lra] |].
    fold mu r. unfold k. field. lra.
  - eapply returns_eq.
    + eapply (debt_returns_any self qv thetav beta2);
        try eassumption; fold mu r b; lra.
    + unfold debt_formula, value_formula. fold mu r b.
      unfold N, k. field. lra.
  - eapply returns_eq.
    + eapply (equity_returns_any self qv thetav beta2);
        try eassumption; fold mu r b; lra.
    + unfold equity_formula, value_formula. fold mu r b.
      unfold T, D, k. field. lra.
Qed.

(** What shareholders keep at the boundary pays the after-tax coupon in
    the ratio beta2 / (beta2 - 1). *)
Lemma domain_matching : (D * (k * b) = T * (beta2 / (beta2 - 1)))%R.
Proof.
  destruct domain_signs as (Hr & Hm & HD & _).
  destruct domain_beta2 as [_ Hn].
  unfold b, boundary_formula, k, T. fold D. field. lra.
Qed.

Lemma domain_slope : (- beta2 * (T - D * (k * b)) = D * (k * b))%R.
Proof.
  destruct domain_beta2 as [_ Hn].
  rewrite domain_matching. field. lra.
Qed.

Lemma domain_recovery : (N * (k * b) - coupon / r < 0)%R.
Proof.
  destruct Hdom as (Hs & Hr & Hm & Ht & Ha & _ & Hq & _ & Hth & Hsp).
  destruct domain_beta2 as [_ Hn].
  pose proof (recovery_below_riskless self qv thetav beta2 coupon
                Hcoupon Hr Hm Ht Ha Hq Hth Hsp Hn) as H.
  unfold value_formula in H. fold mu r b in H.
  destruct domain_signs as (Hr' & Hm' & _).
  replace (N * (k * b) - coupon / r)%R
    with (qv * (1 - alpha self) * (b * (1 - tau self) / (r - mu))
          + (1 - qv) * (1 - thetav) * (b * (1 - tau self) / (r - mu))
          - coupon / r)%R
    by (unfold N, k; field; lra).
  exact H.
Qed.

End Domain.

Section ClosedForms.

(** The closed forms of equity and debt, over the quantities they are made
    of: slope [k] of the asset value, after-tax coupon value [T], riskless
    coupon value [C], equity share [D] and debt recovery [N] at the
    barrier [b]. *)
Variables (k T C D N b beta2 : R).

Hypothesis Hb : (0 < b)%R.
Hypothesis Hbeta : (beta2 < 0)%R.
Hypothesis Hk : (0 < k)%R.
Hypothesis HD : (0 < D <= 1)%R.
Hypothesis Hslope : (- beta2 * (T - D * (k * b)) = D * (k * b))%R.
Hypothesis Hrecovery : (N * (k * b) - C < 0)%R.








End ClosedForms.

(* ------------------------------------------------------------------ *)
(** ** Further properties: values of the renegotiation model *)

Section DomainTheorems.

Import FirmClaimsRenegotiation.

Variable self : AssetsDynamics.
Variables (qv thetav coupon : R).
Hypothesis Hdom : in_domain self qv thetav.
Hypothesis Hcoupon : (0 < coupon)%R.

Local Abbreviation mu := (self.(drift)).
Local Abbreviation r := (self.(r_free)).
Local Abbreviation beta2 :=
  (beta2_formula self.(drift) self.(volatility) self.(r_free)).
Local Abbreviation b := (boundary_formula mu r beta2 qv thetav coupon).
Local Abbreviation D := (1 - (1 - qv) * thetav)%R.
Local Abbreviation N := (qv * (1 - self.(alpha)) + (1 - qv) * (1 - thetav))%R.
Local Abbreviation k := ((1 - self.(tau)) / (r - mu))%R.
Local Abbreviation T := ((1 - self.(tau)) * (coupon / r))%R.
Local Abbreviation C := (coupon / r)%R.

(** The methods return the closed forms. *)
Lemma domain_closed (vc vx : pyval) (x : R) :
  real_of vc = Some coupon -> real_of vx = Some x -> (0 < x)%R ->
  returns (equity self vc vx) (equity_closed k T D b beta2 x)
  /\ returns (debt self vc vx) (debt_closed k C N b beta2 x)
  /\ returns (firm self vc vx)
             (equity_closed k T D b beta2 x + debt_closed k C N b beta2 x).
Proof.
  intros Hvc Hvx Hx.
  destruct (domain_returns self qv thetav coupon Hdom Hcoupon vc vx x
              Hvc Hvx Hx) as (_ & _ & Hd & He).
  repeat split; try assumption.
  unfold firm. apply returns_add; assumption.
Qed.

(** The facts the closed forms rest on. *)
Lemma domain_closed_facts :
  (0 < b)%R /\ (beta2 < 0)%R /\ (0 < k)%R /\ (0 < D <= 1)%R
  /\ (- beta2 * (T - D * (k * b)) = D * (k * b))%R
  /\ (N * (k * b) - C < 0)%R /\ (0 <= N)%R.
Proof.
  destruct (domain_signs self qv thetav coupon Hdom Hcoupon)
    as (_ & _ & HD & HN & Hk & _).
  destruct (domain_beta2 self qv thetav Hdom) as [_ Hn].
  repeat split; try lra.
  - apply (domain_boundary_pos self qv thetav coupon Hdom Hcoupon).
  - apply (domain_slope self qv thetav coupon Hdom Hcoupon).
  - apply (domain_recovery self qv thetav coupon Hdom Hcoupon).
Qed.








End DomainTheorems.

(** X10: The model has no scale: multiplying coupon and cash flow by m > 0
    multiplies equity and debt by m. *)
Theorem scale_invariance
        (self : AssetsDynamics) (qv thetav coupon x m : R) :
  in_domain self qv thetav ->
  (0 < coupon)%R -> (0 < x)%R -> (0 < m)%R ->
  exists e d : R,
    returns (FirmClaimsRenegotiation.equity self (py coupon) (py x)) e
    /\ returns (FirmClaimsRenegotiation.debt self (py coupon) (py x)) d
    /\ returns (FirmClaimsRenegotiation.equity
                  self (py (m * coupon)) (py (m * x))) (m * e)
    /\ returns (FirmClaimsRenegotiation.debt
                  self (py (m * coupon)) (py (m * x))) (m * d).
Proof.
  intros Hdom Hc Hx Hm.
  assert (Hmc : (0 < m * coupon)%R) by (apply Rmult_lt_0_compat; assumption).
  assert (Hmx : (0 < m * x)%R) by (apply Rmult_lt_0_compat; assumption).
  destruct (domain_closed self qv thetav coupon Hdom Hc
              (py coupon) (py x) x eq_refl eq_refl Hx) as (He & Hd & _).
  destruct (domain_closed self qv thetav (m * coupon) Hdom Hmc
              (py (m * coupon)) (py (m * x)) (m * x) eq_refl eq_refl Hmx)
    as (He' & Hd' & _).
  destruct (domain_closed_facts self qv thetav coupon Hdom Hc)
    as (Hb & Hn & _ & HD & _).
  destruct (domain_signs self qv thetav coupon Hdom Hc) as (Hr & Hmu & _).
  set (beta2 := beta2_formula (drift self) (volatility self) (r_free self))
    in *.
  set (b := boundary_formula (drift self) (r_free self) beta2 qv thetav
                             coupon) in *.
  assert (Eb : boundary_formula (drift self) (r_free self) beta2 qv thetav
                                (m * coupon) = (m * b)%R).
  { unfold b, boundary_formula. field. repeat split; lra. }
  rewrite Eb in He', Hd'.
  assert (Ex : (m * x / (m * b) = x / b)%R) by (field; lra).
  eexists. eexists. split; [exact He |]. split; [exact Hd |]. split.
  - eapply returns_eq; [exact He' |].
    unfold equity_closed. rewrite Ex. field. lra.
  - eapply returns_eq; [exact Hd' |].
    unfold debt_closed. rewrite Ex. field. lra.
Qed.

Lemma example_in_domain : in_domain example_renegotiation 1 (0.5 * 0.4).
Proof. unfold in_domain. simpl. repeat split; try reflexivity; lra. Defined.

Lemma scale_invariance_witness :
  exists e d : R,
    returns (FirmClaimsRenegotiation.equity
               example_renegotiation (py 0.05) (py 1)) e
    /\ returns (FirmClaimsRenegotiation.debt
                  example_renegotiation (py 0.05) (py 1)) d
    /\ returns (FirmClaimsRenegotiation.equity
                  example_renegotiation (py (2 * 0.05)) (py (2 * 1))) (2 * e)
    /\ returns (FirmClaimsRenegotiation.debt
                  example_renegotiation (py (2 * 0.05)) (py (2 * 1))) (2 * d).
Proof.
  apply (scale_invariance example_renegotiation 1 (0.5 * 0.4) 0.05 1 2);
    [exact example_in_domain | lra | lra | lra].
Defined.



(* ------------------------------------------------------------------ *)
(** ** Further properties: edges of the renegotiation model *)

Lemma numpy_returns (e : result pyval) (r : R) :
  numpy e -> returns e r -> exists s, e = Ok (NpFloat (Fin r s)).
Proof.
  intros (y & ->) (v & [= <-] & Hv).
  destruct y as [a s | |]; simpl in Hv; try discriminate.
  injection Hv as ->. exists s. reflexivity.
Qed.

Lemma is_int_false (e : R) : (forall z : Z, IZR z <> e) -> is_int e = false.
Proof.
  intros H. unfold is_int.
  destruct (Req_dec_T (IZR (Int_part e)) e) as [E | _];
    [destruct (H _ E) | reflexivity].
Qed.

Lemma not_integer_between (e : R) :
  (-1 < e < 0)%R -> forall z : Z, IZR z <> e.
Proof.
  intros [H1 H2] z <-. apply lt_IZR in H1, H2. lia.
Qed.

(** X12: A cash flow and a barrier of opposite signs: the ratio is negative and,
    beta2 not being an integer, numpy's power is NaN.  No exception, and
    no complex number. *)
Theorem arrow_debreu_default_nan
        (self : AssetsDynamics) (cash_flow barrier : R) :
  (0 < self.(volatility))%R -> (0 < self.(r_free))%R ->
  (forall z : Z,
      IZR z <> beta2_formula self.(drift) self.(volatility) self.(r_free)) ->
  barrier <> 0%R -> (cash_flow / barrier < 0)%R ->
  FirmClaimsRenegotiation._arrow_debreu_default
    self (py cash_flow) (py barrier)
  = Ok (NpFloat NaN).
Proof.
  intros Hs Hr Hz Hb Hx.
  set (beta2 := beta2_formula (drift self) (volatility self) (r_free self))
    in *.
  assert (Hbeta : returns (FirmClaimsRenegotiation._beta2 self) beta2).
  { apply Renegotiation_beta2_returns; [lra |].
    apply Rlt_le, discriminant_pos; assumption. }
  assert (Hnp : numpy (FirmClaimsRenegotiation._beta2 self))
    by (apply Renegotiation_beta2_numpy; lra).
  destruct (numpy_returns _ _ Hnp Hbeta) as (s & E).
  assert (Hn0 : beta2 <> 0%R) by (apply not_eq_sym, (Hz 0%Z)).
  unfold FirmClaimsRenegotiation._arrow_debreu_default. rewrite E.
  unfold py, of_R. simpl. rewrite (Rzero_false barrier) by assumption.
  simpl. unfold fpow.
  rewrite (Rzero_false beta2), (Rzero_false (cash_flow / barrier)) by lra.
  rewrite (Rneg_true (cash_flow / barrier)) by assumption.
  rewrite is_int_false by assumption. reflexivity.
Qed.

Lemma example_beta2_between : (-1 < beta2_formula 0.01 0.25 0.04 < 0)%R.
Proof.
  split.
  - unfold beta2_formula.
    assert (H : (sqrt ((0.5 - 0.01 / 0.25 ^ 2) ^ 2 + 2 * 0.04 / 0.25 ^ 2)
                 < sqrt (1.34 * 1.34))%R).
    { apply sqrt_lt_1_alt. split.
      - apply Rlt_le, (discriminant_pos example_dynamics); simpl; lra.
      - simpl. lra. }
    rewrite sqrt_square in H by lra. simpl in *. lra.
  - apply (beta2_formula_neg example_dynamics); simpl; lra.
Defined.

Lemma arrow_debreu_default_nan_witness :
  FirmClaimsRenegotiation._arrow_debreu_default
    example_renegotiation (py (-1)) (py 1)
  = Ok (NpFloat NaN).
Proof.
  apply (arrow_debreu_default_nan example_renegotiation (-1) 1);
    simpl; try lra.
  apply not_integer_between, example_beta2_between.
Defined.

Section ZeroCoupon.

Import FirmClaimsRenegotiation.

Variable self : AssetsDynamics.
Variables (qv thetav : R).
Hypothesis Hdom : in_domain self qv thetav.

(** Over a barrier of 0.0 the ratio is an infinity, and an infinity to the
    negative power beta2 is 0.0. *)
Lemma arrow_debreu_default_zero_barrier (x : R) (s : bool) :
  x <> 0%R ->
  returns (_arrow_debreu_default self (py x) (NpFloat (Fin 0 s))) 0.
Proof.
  intros Hx.
  destruct (domain_beta2 self qv thetav Hdom) as [Hbeta Hn].
  destruct Hdom as (Hs & _).
  assert (Hnp : numpy (_beta2 self))
    by (apply Renegotiation_beta2_numpy; lra).
  destruct (numpy_returns _ _ Hnp Hbeta) as (sb & E).
  unfold _arrow_debreu_default. rewrite E.
  unfold py, of_R. simpl.
  rewrite (Rzero_true 0), (Rzero_false x) by auto.
  unfold fpow. rewrite (Rzero_false (beta2_formula _ _ _)) by lra.
  rewrite (Rneg_true (beta2_formula _ _ _)) by assumption.
  destruct (xorb (Rneg x) s); solve_returns.
Qed.

Lemma zero_coupon_boundary :
  exists s : bool, debt_renegotiation self (py 0) = Ok (NpFloat (Fin 0 s)).
Proof.
  destruct (domain_beta2 self qv thetav Hdom) as [Hbeta Hn].
  pose proof (domain_boundary_returns self qv thetav Hdom (py 0) 0 eq_refl)
    as Hb.
  destruct Hdom as (Hs & Hr & Hm & _ & _ & Hq & _ & Hth & _ & Hsp).
  apply numpy_returns.
  - apply (Renegotiation_debt_renegotiation_numpy self qv thetav);
      try assumption; lra.
  - eapply returns_eq; [exact Hb |].
    unfold boundary_formula. field. repeat split; lra.
Qed.

(** X13: No debt: a coupon of zero puts the boundary at 0.0, debt is worth
    nothing, and equity and the firm are worth the assets.  The division
    by the boundary is numpy's and yields an infinity, not an
    exception. *)
Theorem zero_coupon_unlevered (x : R) :
  (0 < x)%R ->
  exists assets : R,
    returns (value self (py x)) assets
    /\ returns (debt_renegotiation self (py 0)) 0
    /\ returns (debt self (py 0) (py x)) 0
    /\ returns (equity self (py 0) (py x)) assets
    /\ returns (firm self (py 0) (py x)) assets.
Proof.
  intros Hx.
  destruct zero_coupon_boundary as (s & E).
  pose proof (arrow_debreu_default_zero_barrier x s ltac:(lra)) as HA.
  destruct Hdom as (Hs & Hr & Hm & Ht & Ha & Hq & Hqv & Hth & Hthv & Hsp).
  assert (Hrm : self.(r_free) <> self.(drift)) by lra.
  pose proof (value_returns self (NpFloat (Fin 0 s)) 0 eq_refl Hrm) as HV.
  pose proof (value_returns self (py x) x eq_refl Hrm) as HX.
  assert (Hd : returns (debt self (py 0) (py x)) 0).
  { unfold debt. rewrite E. cbn [bind].
    eapply returns_eq; [eval_py; lra |]. field. lra. }
  assert (He : returns (equity self (py 0) (py x))
                       (x * (1 - self.(tau))
                        / (self.(r_free) - self.(drift)))).
  { unfold equity. rewrite E. cbn [bind].
    eapply returns_eq; [eval_py; lra |]. field. lra. }
  eexists. split; [exact HX |]. repeat split.
  - rewrite E. solve_returns.
  - exact Hd.
  - exact He.
  - unfold firm. eapply returns_eq; [apply returns_add; eassumption |].
    ring.
Qed.

End ZeroCoupon.

Lemma zero_coupon_unlevered_witness :
  exists assets : R,
    returns (value example_renegotiation (py 1)) assets
    /\ returns (FirmClaimsRenegotiation.debt_renegotiation
                  example_renegotiation (py 0)) 0
    /\ returns (FirmClaimsRenegotiation.debt
                  example_renegotiation (py 0) (py 1)) 0
    /\ returns (FirmClaimsRenegotiation.equity
                  example_renegotiation (py 0) (py 1)) assets
    /\ returns (FirmClaimsRenegotiation.firm
                  example_renegotiation (py 0) (py 1)) assets.
Proof.
  apply (zero_coupon_unlevered example_renegotiation 1 (0.5 * 0.4)
           example_in_domain 1).
  lra.
Defined.

(* ------------------------------------------------------------------ *)
(** ** Further properties: witnesses on the parameters of example.py *)








(* ------------------------------------------------------------------ *)
(** ** Further properties: the named constructor and the script *)






Close Scope py_scope.
